(** * CRM pages (Leads, HandleCustomer) and the realtime migration

  A shallow embedding of [src/pages/Leads.tsx], [src/pages/HandleCustomer.tsx]
  and [src/supabase/migrations/20250804081132_blue_unit.sql].

  - JavaScript strings are sequences of UTF-16 code units ([Js.str]).
  - An [async] handler is a program ([Prog]) over the component state: it
    issues requests to the hosted backend, awaits their outcome, calls the
    React state setters and writes to the diagnostic console.
  - The hosted backend is outside the repository; programs are interpreted
    against an arbitrary backend ([Section Interp]) and, for concrete runs,
    against an in-memory stand-in ([Db]).
  - The JSX returned by a page is a tree of the data it shows ([View]).
  - The migration is a list of SQL statements run on a catalogue. *)

From Stdlib Require Import List String Ascii NArith ZArith Bool Arith Lia.
Import ListNotations.

(** ** JavaScript strings *)

Module Js.

(** A string value: its UTF-16 code units. *)
Definition str := list N.

(** A string literal of the source (all of them are ASCII). *)
Definition lit (s : string) : str :=
  map N_of_ascii (list_ascii_of_string s).

(** [a === b] on two strings. *)
Fixpoint eqb (a b : str) : bool :=
  match a, b with
  | [], [] => true
  | x :: a', y :: b' => N.eqb x y && eqb a' b'
  | _, _ => false
  end.

(** ECMAScript WhiteSpace: TAB, VT, FF, ZWNBSP and the Space_Separator
    code points (all of them in the basic plane). *)
Definition is_white_space (c : N) : bool :=
  (N.eqb c 9 || N.eqb c 11 || N.eqb c 12 || N.eqb c 32 || N.eqb c 160
   || N.eqb c 5760 || (N.leb 8192 c && N.leb c 8202)
   || N.eqb c 8239 || N.eqb c 8287 || N.eqb c 12288 || N.eqb c 65279)%bool.

(** ECMAScript LineTerminator: LF, CR, LS, PS. *)
Definition is_line_terminator (c : N) : bool :=
  (N.eqb c 10 || N.eqb c 13 || N.eqb c 8232 || N.eqb c 8233)%bool.

(** What [String.prototype.trim] strips at both ends. *)
Definition strippable (c : N) : bool :=
  is_white_space c || is_line_terminator c.

Fixpoint trimStart (s : str) : str :=
  match s with
  | [] => []
  | c :: s' => if strippable c then trimStart s' else s
  end.

Definition trimEnd (s : str) : str := rev (trimStart (rev s)).

(** [s.trim()] *)
Definition trim (s : str) : str := trimEnd (trimStart s).

(** ToBoolean of a string: only the empty string is falsy. *)
Definition truthy (s : str) : bool :=
  match s with [] => false | _ :: _ => true end.

(** ToBoolean of an object reference or [null]/[undefined]. *)
Definition truthy_ref {A} (o : option A) : bool :=
  match o with Some _ => true | None => false end.

(** Empty or made of strippable code units only. *)
Definition blank (s : str) : bool := forallb strippable s.

(** [Array.prototype.slice(start, end)] with integer arguments. *)
Definition slice {A} (start end_ : Z) (l : list A) : list A :=
  let len := Z.of_nat (List.length l) in
  let k := if (start <? 0)%Z then Z.max (len + start) 0 else Z.min start len in
  let final := if (end_ <? 0)%Z then Z.max (len + end_) 0 else Z.min end_ len in
  firstn (Z.to_nat (Z.max (final - k) 0)) (skipn (Z.to_nat k) l).

(** [Array.prototype.find]: the first element satisfying the predicate,
    [undefined] when there is none. *)
Definition find {A} (f : A -> bool) (l : list A) : option A := List.find f l.

(** [o?.field || dflt] for a string field. *)
Definition field_or {A} (o : option A) (field : A -> str) (dflt : str) : str :=
  match o with
  | None => dflt
  | Some x => if truthy (field x) then field x else dflt
  end.

End Js.

Definition str : Type := Js.str.
Notation "'js' s" := (Js.lit s%string) (at level 9, s at level 0, only parsing).

(** ** Rows surfaced to the client

  The declarations of [../types] are not part of the sources; each record
  has the columns the two pages read or write. *)

Module Lead.
Record t := mk {
  id : str;
  name : str;
  email : str;
  phone : str;
  product : option str;
  status : str;
  created_at : str
  }.
Definition with_status (s : str) (l : t) : t :=
  mk (id l) (name l) (email l) (phone l) (product l) s (created_at l).
End Lead.

Module Note.
Record t := mk {
  id : str;
  lead_id : str;
  content : str;
  created_by : str;
  created_at : str
  }.
End Note.

Module FollowUp.
Record t := mk {
  id : str;
  lead_id : str;
  notes : str;
  follow_up_date : str;
  created_at : str
  }.
End FollowUp.

(** ** Backend calls *)

(** The tables the pages read: ['leads'], ['notes'], ['follow_ups']. *)
Module Table.
Inductive t := leads | notes | follow_ups.
Definition eqb (a b : t) : bool :=
  match a, b with
  | leads, leads | notes, notes | follow_ups, follow_ups => true
  | _, _ => false
  end.
End Table.
Definition table := Table.t.

Definition row (t : table) : Type :=
  match t with
  | Table.leads => Lead.t
  | Table.notes => Note.t
  | Table.follow_ups => FollowUp.t
  end.

(** The calls the pages make through the client handle. *)
Inductive request :=
(** [.from(t).select('*').order('created_at', { ascending: false })] *)
  | Select (t : table)
(** [.from('notes').insert({ lead_id, content, created_by })] *)
  | InsertNote (lead_id content created_by : str)
(** [.from('follow_ups').insert({ lead_id, notes, follow_up_date })] *)
  | InsertFollowUp (lead_id notes follow_up_date : str)
(** [.from('leads').update({ status }).eq('id', leadId)] *)
  | UpdateStatus (leadId status : str).

(** The error object a call returns, and a value thrown by a rejected call. *)
Record PostgrestError := { message : str }.
Inductive thrown := Thrown (reason : str).

(** The resolved value [{ data, error }] of a call. *)
Record response_of (D : Type) := { data : option D; error : option PostgrestError }.
Arguments Build_response_of {D} data error.
Arguments data {D} r.
Arguments error {D} r.

Definition payload (r : request) : Type :=
  match r with
  | Select t => list (row t)
  | _ => unit
  end.

Definition response (r : request) : Type := response_of (payload r).

(** An awaited promise settles: resolved with a value or rejected. *)
Inductive outcome (A : Type) :=
  | Resolved (a : A)
  | Rejected (e : thrown).
Arguments Resolved {A} a.
Arguments Rejected {A} e.

(** ** Handler programs *)

Section Programs.
Variable S : Type.

Inductive Prog (A : Type) : Type :=
  | Ret (a : A)
  | Throw (e : thrown)
  (** a React state setter *)
  | SetState (f : S -> S) (k : Prog A)
  (** [console.error(label, e)] *)
  | ConsoleError (label : str) (e : thrown) (k : Prog A)
  (** [new Date().toISOString()] *)
  | Now (k : str -> Prog A)
  (** a backend call whose promise is settled with [o] *)
  | Call (r : request) (k : outcome (response r) -> Prog A).
Arguments Ret {A} a.
Arguments Throw {A} e.
Arguments SetState {A} f k.
Arguments ConsoleError {A} label e k.
Arguments Now {A} k.
Arguments Call {A} r k.

Fixpoint bind {A B} (p : Prog A) (f : A -> Prog B) : Prog B :=
  match p with
  | Ret a => f a
  | Throw e => Throw e
  | SetState g k => SetState g (bind k f)
  | ConsoleError l e k => ConsoleError l e (bind k f)
  | Now k => Now (fun t => bind (k t) f)
  | Call r k => Call r (fun o => bind (k o) f)
  end.

(** [await call]: a rejection is thrown at the await. *)
Definition await (r : request) : Prog (response r) :=
  Call r (fun o => match o with
                   | Resolved v => Ret v
                   | Rejected e => Throw e
                   end).

Definition set (f : S -> S) : Prog unit := SetState f (Ret tt).
Definition console_error (l : str) (e : thrown) : Prog unit :=
  ConsoleError l e (Ret tt).
Definition now : Prog str := Now (fun t => Ret t).

(** [try { p } catch (error) { h error }] *)
Fixpoint try_catch {A} (p : Prog A) (h : thrown -> Prog A) : Prog A :=
  match p with
  | Ret a => Ret a
  | Throw e => h e
  | SetState g k => SetState g (try_catch k h)
  | ConsoleError l e k => ConsoleError l e (try_catch k h)
  | Now k => Now (fun t => try_catch (k t) h)
  | Call r k => Call r (fun o => try_catch (k o) h)
  end.

(** [try { p } finally { fin }] *)
Fixpoint try_finally {A} (p : Prog A) (fin : Prog unit) : Prog A :=
  match p with
  | Ret a => bind fin (fun _ => Ret a)
  | Throw e => bind fin (fun _ => Throw e)
  | SetState g k => SetState g (try_finally k fin)
  | ConsoleError l e k => ConsoleError l e (try_finally k fin)
  | Now k => Now (fun t => try_finally (k t) fin)
  | Call r k => Call r (fun o => try_finally (k o) fin)
  end.

(** A promise run to its end, its rejection kept as a value. *)
Definition settle (p : Prog unit) : Prog (option thrown) :=
  try_catch (bind p (fun _ => Ret None)) (fun e => Ret (Some e)).

(** What [Promise.all] settles to, given how its two promises settled,
    the one that settled first given first: the first rejection in time. *)
Definition first_rejection (earlier later : option thrown) : Prog unit :=
  match earlier, later with
  | Some e, _ => Throw e
  | None, Some e => Throw e
  | None, None => Ret tt
  end.

(** [await Promise.all([p, q])]. Both promises are started, so both calls
    are sent, [p]'s first; the answers may come back in either order, and
    [second_first] says that [q]'s answer comes back before [p]'s. Each
    promise goes on to its end when its answer is there, whether or not the
    other has rejected, and the await throws the rejection that happened
    first. A promise that does not begin by awaiting a call (the pages have
    none) is run to its end where it is started. *)
Definition promise_all2 (second_first : bool) (p q : Prog unit) : Prog unit :=
  match p, q with
  | Call r1 k1, Call r2 k2 =>
      Call r1 (fun o1 =>
      Call r2 (fun o2 =>
        if second_first
        then bind (settle (k2 o2)) (fun rq =>
             bind (settle (k1 o1)) (fun rp => first_rejection rq rp))
        else bind (settle (k1 o1)) (fun rp =>
             bind (settle (k2 o2)) (fun rq => first_rejection rp rq))))
  | _, _ =>
      bind (settle p) (fun rp =>
      bind (settle q) (fun rq => first_rejection rp rq))
  end.

End Programs.

Arguments Ret {S A} a.
Arguments Throw {S A} e.
Arguments SetState {S A} f k.
Arguments ConsoleError {S A} label e k.
Arguments Now {S A} k.
Arguments Call {S A} r k.
Arguments bind {S A B} p f.
Arguments await {S} r.
Arguments set {S} f.
Arguments console_error {S} l e.
Arguments now {S}.
Arguments try_catch {S A} p h.
Arguments try_finally {S A} p fin.
Arguments settle {S} p.
Arguments first_rejection {S} earlier later.
Arguments promise_all2 {S} second_first p q.

Declare Scope prog_scope.
Delimit Scope prog_scope with prog.
Notation "x <- p ;; q" := (bind p (fun x => q))
  (at level 100, p at next level, right associativity) : prog_scope.
Notation "p ;; q" := (bind p (fun _ => q))
  (at level 100, right associativity) : prog_scope.
Open Scope prog_scope.

(** ** Running a program against a backend *)

(** How an [async] function ends: its promise resolves or rejects. *)
Inductive completion (A : Type) :=
  | Returned (a : A)
  | Uncaught (e : thrown).
Arguments Returned {A} a.
Arguments Uncaught {A} e.

Section Interp.
Variable S : Type.
(** The backend: its state, how it answers a call, and its clock. *)
Variable B : Type.
Variable serve : B -> forall r : request, outcome (response r) * B.
Variable clock : B -> str * B.

(** What a run can touch: the component state, the diagnostic console, the
    calls sent over the network (oldest first) and the backend. *)
Record World := mkWorld {
  page : S;
  console : list (str * thrown);
  wire : list request;
  backend : B
}.

Fixpoint run {A} (p : Prog S A) (w : World) : completion A * World :=
  match p with
  | Ret a => (Returned a, w)
  | Throw e => (Uncaught e, w)
  | SetState f k =>
      run k (mkWorld (f (page w)) (console w) (wire w) (backend w))
  | ConsoleError l e k =>
      run k (mkWorld (page w) (console w ++ [(l, e)]) (wire w) (backend w))
  | Now k =>
      let (t, b) := clock (backend w) in
      run (k t) (mkWorld (page w) (console w) (wire w) b)
  | Call r k =>
      let (o, b) := serve (backend w) r in
      run (k o) (mkWorld (page w) (console w) (wire w ++ [r]) b)
  end.

End Interp.

Arguments mkWorld {S B} page console wire backend.
Arguments page {S B} w.
Arguments console {S B} w.
Arguments wire {S B} w.
Arguments backend {S B} w.
Arguments run {S B} serve clock {A} p w.

(** ** Realtime subscriptions *)

(** The filter given to [.on('postgres_changes', filter, callback)]. *)
Record ChangeFilter := { event : str; schema : str; table_name : str }.

Inductive ChangeKind := INSERT | UPDATE | DELETE.

Definition kind_name (k : ChangeKind) : str :=
  match k with
  | INSERT => js "INSERT"
  | UPDATE => js "UPDATE"
  | DELETE => js "DELETE"
  end.

(** A row change published by the backend. *)
Record ChangeEvent := {
  ev_kind : ChangeKind;
  ev_schema : str;
  ev_table : str
}.

(** The backend delivers a change to a channel when the filter's event is
    ['*'] or the kind of the change, and schema and table are those of the
    change. *)
Definition matches (f : ChangeFilter) (ev : ChangeEvent) : bool :=
  (Js.eqb (event f) (js "*") || Js.eqb (event f) (kind_name (ev_kind ev)))
  && Js.eqb (schema f) (ev_schema ev)
  && Js.eqb (table_name f) (ev_table ev).

(** [supabase.channel(name).on('postgres_changes', filter, callback).subscribe()] *)
Record Subscription (S : Type) := {
  channel : str;
  filter : ChangeFilter;
  callback : Prog S unit
}.
Arguments channel {S} s.
Arguments filter {S} s.
Arguments callback {S} s.

Section Realtime.
Variable S : Type.
Variable B : Type.
Variable serve : B -> forall r : request, outcome (response r) * B.
Variable clock : B -> str * B.

(** A mounted page: its world and the channels its effect has opened. *)
Record Mounted := mkMounted {
  world : World S B;
  channels : list (Subscription S)
}.

(** A change reaches every open channel whose filter it matches; the
    callback's promise is not awaited by anyone, its rejection is lost. *)
Definition deliver (ev : ChangeEvent) (m : Mounted) : Mounted :=
  mkMounted
    (fold_left
       (fun w sub =>
          if matches (filter sub) ev
          then snd (run serve clock (callback sub) w)
          else w)
       (channels m) (world m))
    (channels m).

Definition deliver_all (evs : list ChangeEvent) (m : Mounted) : Mounted :=
  fold_left (fun m ev => deliver ev m) evs m.

(** [sub.unsubscribe()]: the channel of that name is closed and receives
    nothing more; the other open channels stay. *)
Definition unsubscribe (sub : Subscription S) (m : Mounted) : Mounted :=
  mkMounted (world m)
    (List.filter (fun c => negb (Js.eqb (channel c) (channel sub))) (channels m)).

End Realtime.

Arguments mkMounted {S B} world channels.
Arguments world {S B} m.
Arguments channels {S B} m.
Arguments deliver {S B} serve clock ev m.
Arguments deliver_all {S B} serve clock evs m.
Arguments unsubscribe {S B} sub m.

(** [getStatusColor], the same in both pages. *)
Definition getStatusColor (status : str) : str :=
  if Js.eqb status (js "new") then js "bg-blue-100 text-blue-800"
  else if Js.eqb status (js "contacted") then js "bg-yellow-100 text-yellow-800"
  else if Js.eqb status (js "qualified") then js "bg-green-100 text-green-800"
  else if Js.eqb status (js "closed") then js "bg-gray-100 text-gray-800"
  else js "bg-gray-100 text-gray-800".

(** ** src/pages/Leads.tsx *)

Module LeadsPage.

Inductive ViewMode := kanban | list_view.

Record State := mkState {
  leads : list Lead.t;
  notes : list Note.t;
  loading : bool;
  viewMode : ViewMode;
  selectedLead : option Lead.t;
  noteText : str;
  submitting : bool
}.

(** The [useState] initial values. *)
Definition initial : State :=
  mkState [] [] true kanban None [] false.

Definition setLeads (v : list Lead.t) (s : State) : State :=
  mkState v (notes s) (loading s) (viewMode s) (selectedLead s) (noteText s) (submitting s).
Definition setNotes (v : list Note.t) (s : State) : State :=
  mkState (leads s) v (loading s) (viewMode s) (selectedLead s) (noteText s) (submitting s).
Definition setLoading (v : bool) (s : State) : State :=
  mkState (leads s) (notes s) v (viewMode s) (selectedLead s) (noteText s) (submitting s).
Definition setViewMode (v : ViewMode) (s : State) : State :=
  mkState (leads s) (notes s) (loading s) v (selectedLead s) (noteText s) (submitting s).
Definition setSelectedLead (v : option Lead.t) (s : State) : State :=
  mkState (leads s) (notes s) (loading s) (viewMode s) v (noteText s) (submitting s).
Definition setNoteText (v : str) (s : State) : State :=
  mkState (leads s) (notes s) (loading s) (viewMode s) (selectedLead s) v (submitting s).
Definition setSubmitting (v : bool) (s : State) : State :=
  mkState (leads s) (notes s) (loading s) (viewMode s) (selectedLead s) (noteText s) v.

Definition fetchLeads : Prog State unit :=
  r <- await (Select Table.leads) ;;
  match data r with
  | Some d => set (setLeads d)
  | None => Ret tt
  end.

Definition fetchNotes : Prog State unit :=
  r <- await (Select Table.notes) ;;
  match data r with
  | Some d => set (setNotes d)
  | None => Ret tt
  end.

(** [second_first]: the answer for notes comes back before the one for
    leads. *)
Definition fetchData (second_first : bool) : Prog State unit :=
  set (setLoading true) ;;
  promise_all2 second_first fetchLeads fetchNotes ;;
  set (setLoading false).

Definition updateLeadStatus (leadId newStatus : str) : Prog State unit :=
  try_catch
    (r <- await (UpdateStatus leadId newStatus) ;;
     match error r with
     | None => fetchLeads
     | Some _ => Ret tt
     end)
    (fun e => console_error (js "Error updating lead status:") e).

(** [addNote] closes over the [selectedLead] and [noteText] of the render
    it was created in ([st]); reading [.id] of [null] would throw. *)
Definition addNote (st : State) : Prog State unit :=
  if negb (Js.truthy_ref (selectedLead st))
     || negb (Js.truthy (Js.trim (noteText st)))
  then Ret tt
  else
    set (setSubmitting true) ;;
    try_finally
      (try_catch
         (r <- match selectedLead st with
               | Some l =>
                   await (InsertNote (Lead.id l) (noteText st) (js "current_user"))
               | None => Throw (Thrown (js "TypeError"))
               end ;;
          match error r with
          | None =>
              set (setNoteText []) ;;
              set (setSelectedLead None) ;;
              fetchNotes
          | Some _ => Ret tt
          end)
         (fun e => console_error (js "Error adding note:") e))
      (set (setSubmitting false)).

Definition getLeadsByStatus (st : State) (status : str) : list Lead.t :=
  List.filter (fun lead => Js.eqb (Lead.status lead) status) (leads st).

(** The two channels opened by the effect, and its cleanup. *)
Definition leadsSubscription : Subscription State :=
  {| channel := js "leads_changes";
     filter := {| event := js "*"; schema := js "public"; table_name := js "leads" |};
     callback := fetchLeads |}.

Definition notesSubscription : Subscription State :=
  {| channel := js "notes_changes";
     filter := {| event := js "*"; schema := js "public"; table_name := js "notes" |};
     callback := fetchNotes |}.

(** The effect run on mount: the first fetch, then the two channels. The
    fetch is started before the channels open and settles on its own; here
    it has settled by the time the first change is delivered. *)
Definition useEffect {B} (serve : B -> forall r : request, outcome (response r) * B)
    (clock : B -> str * B) (second_first : bool) (w : World State B)
    : Mounted State B :=
  mkMounted (snd (run serve clock (fetchData second_first) w))
            [leadsSubscription; notesSubscription].

(** The effect's cleanup: [leadsSubscription.unsubscribe()], then
    [notesSubscription.unsubscribe()]. *)
Definition cleanup {B} (m : Mounted State B) : Mounted State B :=
  unsubscribe notesSubscription (unsubscribe leadsSubscription m).

(** *** Event handlers written inline in the JSX *)

(** [onClick={() => setSelectedLead(lead)}] of an entry of All Leads. *)
Definition clickLead (lead : Lead.t) : State -> State :=
  setSelectedLead (Some lead).

(** [onChange={(e) => setNoteText(e.target.value)}] of the textarea. *)
Definition changeNoteText (value : str) : State -> State :=
  setNoteText value.

(** [onClick] of Cancel: [setSelectedLead(null); setNoteText('')]. *)
Definition clickCancel (s : State) : State :=
  setNoteText [] (setSelectedLead None s).

(** *** What the page renders *)

Record StatsCards := {
  new_leads : nat;
  contacted : nat;
  qualified : nat;
  closed : nat
}.

Record LeadCard := {
  lead_key : str;
  lead_selected : bool;
  lead_name : str;
  lead_badge : str;
  lead_status : str;
  lead_email : str;
  lead_phone : str;
  lead_interest : option str;
  lead_created : str
}.

(** One entry of Recent Notes; [note_date] is the timestamp handed to
    [new Date(..).toLocaleDateString()]. *)
Record NoteCard := {
  note_key : str;
  note_title : str;
  note_date : str;
  note_text : str
}.

Inductive NoteForm :=
  | SelectALead (message : str)
  | Form (name email value : str) (disabled spinner : bool).

Record ListView := {
  lead_cards : list LeadCard;
  leads_empty : option str;
  note_form : NoteForm;
  recent_notes : list NoteCard;
  notes_empty : option str
}.

Inductive Body :=
  | KanbanBoard (board_leads : list Lead.t)
  | ListBody (v : ListView).

Inductive View :=
  | Spinner
  | PageView (stats : StatsCards) (body : Body).

Definition render_lead (st : State) (lead : Lead.t) : LeadCard :=
  {| lead_key := Lead.id lead;
     lead_selected :=
       match selectedLead st with
       | Some s => Js.eqb (Lead.id s) (Lead.id lead)
       | None => false
       end;
     lead_name := Lead.name lead;
     lead_badge := getStatusColor (Lead.status lead);
     lead_status := Lead.status lead;
     lead_email := Lead.email lead;
     lead_phone := Lead.phone lead;
     lead_interest :=
       match Lead.product lead with
       | Some p => if Js.truthy p then Some p else None
       | None => None
       end;
     lead_created := Lead.created_at lead |}.

Definition render_note (st : State) (note : Note.t) : NoteCard :=
  let lead := Js.find (fun l => Js.eqb (Lead.id l) (Note.lead_id note)) (leads st) in
  {| note_key := Note.id note;
     note_title := Js.field_or lead Lead.name (js "Unknown Lead");
     note_date := Note.created_at note;
     note_text := Note.content note |}.

Definition render (st : State) : View :=
  if loading st then Spinner
  else
    PageView
      {| new_leads := List.length (getLeadsByStatus st (js "new"));
         contacted := List.length (getLeadsByStatus st (js "contacted"));
         qualified := List.length (getLeadsByStatus st (js "qualified"));
         closed := List.length (getLeadsByStatus st (js "closed")) |}
      (match viewMode st with
       | kanban => KanbanBoard (leads st)
       | list_view =>
           ListBody
             {| lead_cards := map (render_lead st) (leads st);
                leads_empty :=
                  if Nat.eqb (List.length (leads st)) 0
                  then Some (js "No leads available") else None;
                note_form :=
                  match selectedLead st with
                  | Some l =>
                      Form (Lead.name l) (Lead.email l) (noteText st)
                           (submitting st || negb (Js.truthy (Js.trim (noteText st))))
                           (submitting st)
                  | None => SelectALead (js "Select a lead to add notes")
                  end;
                recent_notes := map (render_note st) (Js.slice 0 5 (notes st));
                notes_empty :=
                  if Nat.eqb (List.length (notes st)) 0
                  then Some (js "No notes yet") else None |}
       end).

(** The entries of the Recent Notes panel in a rendered view. *)
Definition rendered_notes (v : View) : list NoteCard :=
  match v with
  | PageView _ (ListBody l) => recent_notes l
  | _ => []
  end.

End LeadsPage.

(** ** src/pages/HandleCustomer.tsx *)

Module HandleCustomerPage.

Record State := mkState {
  leads : list Lead.t;
  followUps : list FollowUp.t;
  loading : bool;
  selectedLead : option Lead.t;
  followUpText : str;
  submitting : bool
}.

Definition initial : State := mkState [] [] true None [] false.

Definition setLeads (v : list Lead.t) (s : State) : State :=
  mkState v (followUps s) (loading s) (selectedLead s) (followUpText s) (submitting s).
Definition setFollowUps (v : list FollowUp.t) (s : State) : State :=
  mkState (leads s) v (loading s) (selectedLead s) (followUpText s) (submitting s).
Definition setLoading (v : bool) (s : State) : State :=
  mkState (leads s) (followUps s) v (selectedLead s) (followUpText s) (submitting s).
Definition setSelectedLead (v : option Lead.t) (s : State) : State :=
  mkState (leads s) (followUps s) (loading s) v (followUpText s) (submitting s).
Definition setFollowUpText (v : str) (s : State) : State :=
  mkState (leads s) (followUps s) (loading s) (selectedLead s) v (submitting s).
Definition setSubmitting (v : bool) (s : State) : State :=
  mkState (leads s) (followUps s) (loading s) (selectedLead s) (followUpText s) v.

Definition fetchLeads : Prog State unit :=
  r <- await (Select Table.leads) ;;
  match data r with
  | Some d => set (setLeads d)
  | None => Ret tt
  end.

Definition fetchFollowUps : Prog State unit :=
  r <- await (Select Table.follow_ups) ;;
  match data r with
  | Some d => set (setFollowUps d)
  | None => Ret tt
  end.

(** [second_first]: the answer for follow_ups comes back before the one
    for leads. *)
Definition fetchData (second_first : bool) : Prog State unit :=
  set (setLoading true) ;;
  promise_all2 second_first fetchLeads fetchFollowUps ;;
  set (setLoading false).

Definition handleFollowUp (st : State) : Prog State unit :=
  if negb (Js.truthy_ref (selectedLead st))
     || negb (Js.truthy (Js.trim (followUpText st)))
  then Ret tt
  else
    set (setSubmitting true) ;;
    try_finally
      (try_catch
         (r <- match selectedLead st with
               | Some l =>
                   t <- now ;;
                   (await (InsertFollowUp (Lead.id l) (followUpText st) t)
                    : Prog State (response_of unit))
               | None => Throw (Thrown (js "TypeError"))
               end ;;
          match error r with
          | None =>
              set (setFollowUpText []) ;;
              set (setSelectedLead None) ;;
              fetchFollowUps
          | Some _ => Ret tt
          end)
         (fun e => console_error (js "Error adding follow-up:") e))
      (set (setSubmitting false)).

Definition updateLeadStatus (leadId status : str) : Prog State unit :=
  try_catch
    (r <- await (UpdateStatus leadId status) ;;
     match error r with
     | None => fetchLeads
     | Some _ => Ret tt
     end)
    (fun e => console_error (js "Error updating lead status:") e).

Definition leadsSubscription : Subscription State :=
  {| channel := js "leads_changes";
     filter := {| event := js "*"; schema := js "public"; table_name := js "leads" |};
     callback := fetchLeads |}.

Definition followUpsSubscription : Subscription State :=
  {| channel := js "follow_ups_changes";
     filter := {| event := js "*"; schema := js "public"; table_name := js "follow_ups" |};
     callback := fetchFollowUps |}.

Definition useEffect {B} (serve : B -> forall r : request, outcome (response r) * B)
    (clock : B -> str * B) (second_first : bool) (w : World State B)
    : Mounted State B :=
  mkMounted (snd (run serve clock (fetchData second_first) w))
            [leadsSubscription; followUpsSubscription].

(** The effect's cleanup: [leadsSubscription.unsubscribe()], then
    [followUpsSubscription.unsubscribe()]. *)
Definition cleanup {B} (m : Mounted State B) : Mounted State B :=
  unsubscribe followUpsSubscription (unsubscribe leadsSubscription m).

(** *** Event handlers written inline in the JSX *)

(** [onClick={() => setSelectedLead(lead)}] of an entry of Active Leads. *)
Definition clickLead (lead : Lead.t) : State -> State :=
  setSelectedLead (Some lead).

(** [onChange={(e) => setFollowUpText(e.target.value)}] of the textarea. *)
Definition changeFollowUpText (value : str) : State -> State :=
  setFollowUpText value.

(** [onClick] of Cancel: [setSelectedLead(null); setFollowUpText('')]. *)
Definition clickCancel (s : State) : State :=
  setFollowUpText [] (setSelectedLead None s).

(** *** What the page renders *)

(** A lead of Active Leads; the two buttons call [updateLeadStatus] with
    the lead's id and the status shown. *)
Record LeadCard := {
  lead_key : str;
  lead_selected : bool;
  lead_name : str;
  lead_badge : str;
  lead_status : str;
  lead_email : str;
  lead_phone : str;
  lead_interest : option str;
  mark_contacted : Prog State unit;
  qualify : Prog State unit
}.

Record FollowUpCard := {
  follow_up_key : str;
  follow_up_title : str;
  follow_up_date : str;
  follow_up_text : str
}.

Inductive FollowUpForm :=
  | SelectALead (message : str)
  | Form (name email value : str) (disabled spinner : bool).

Inductive View :=
  | Spinner
  | PageView (lead_cards : list LeadCard) (leads_empty : option str)
             (form : FollowUpForm)
             (recent_follow_ups : list FollowUpCard) (follow_ups_empty : option str).

Definition render_lead (st : State) (lead : Lead.t) : LeadCard :=
  {| lead_key := Lead.id lead;
     lead_selected :=
       match selectedLead st with
       | Some s => Js.eqb (Lead.id s) (Lead.id lead)
       | None => false
       end;
     lead_name := Lead.name lead;
     lead_badge := getStatusColor (Lead.status lead);
     lead_status := Lead.status lead;
     lead_email := Lead.email lead;
     lead_phone := Lead.phone lead;
     lead_interest :=
       match Lead.product lead with
       | Some p => if Js.truthy p then Some p else None
       | None => None
       end;
     mark_contacted := updateLeadStatus (Lead.id lead) (js "contacted");
     qualify := updateLeadStatus (Lead.id lead) (js "qualified") |}.

Definition render_follow_up (st : State) (followUp : FollowUp.t) : FollowUpCard :=
  let lead := Js.find (fun l => Js.eqb (Lead.id l) (FollowUp.lead_id followUp)) (leads st) in
  {| follow_up_key := FollowUp.id followUp;
     follow_up_title := Js.field_or lead Lead.name (js "Unknown Lead");
     follow_up_date := FollowUp.created_at followUp;
     follow_up_text := FollowUp.notes followUp |}.

Definition render (st : State) : View :=
  if loading st then Spinner
  else
    PageView
      (map (render_lead st) (leads st))
      (if Nat.eqb (List.length (leads st)) 0
       then Some (js "No leads available") else None)
      (match selectedLead st with
       | Some l =>
           Form (Lead.name l) (Lead.email l) (followUpText st)
                (submitting st || negb (Js.truthy (Js.trim (followUpText st))))
                (submitting st)
       | None => SelectALead (js "Select a lead to add follow-up notes")
       end)
      (map (render_follow_up st) (Js.slice 0 10 (followUps st)))
      (if Nat.eqb (List.length (followUps st)) 0
       then Some (js "No follow-ups yet") else None).

(** The entries of the Recent Follow-ups panel in a rendered view. *)
Definition rendered_follow_ups (v : View) : list FollowUpCard :=
  match v with
  | PageView _ _ _ l _ => l
  | Spinner => []
  end.

End HandleCustomerPage.

(** ** An in-memory backend

    A stand-in for the hosted database, used to run the pages on concrete
    inputs: three tables kept newest first, a clock, and a plan saying how
    each of the next calls goes wrong (none when the plan is exhausted). *)

Module Db.

Inductive fault :=
  | Healthy
  (** the call resolves to [{ data: null, error }] *)
  | ReturnsError (e : PostgrestError)
  (** the promise rejects *)
  | Rejects (e : thrown).

Record t := mk {
  lead_rows : list Lead.t;
  note_rows : list Note.t;
  follow_up_rows : list FollowUp.t;
  time : str;
  plan : list fault
}.

Definition rows (b : t) (tb : table) : list (row tb) :=
  match tb with
  | Table.leads => lead_rows b
  | Table.notes => note_rows b
  | Table.follow_ups => follow_up_rows b
  end.

(** The key given to the n-th row of a table. *)
Definition fresh_id (prefix : string) (n : nat) : str :=
  js prefix ++ [N.of_nat n + 48]%N.

Definition apply (b : t) (r : request) (p : list fault) : response r * t :=
  match r return response r * t with
  | Select tb =>
      (Build_response_of (Some (rows b tb)) None,
       mk (lead_rows b) (note_rows b) (follow_up_rows b) (time b) p)
  | InsertNote l c u =>
      (Build_response_of None None,
       mk (lead_rows b)
          (Note.mk (fresh_id "n" (List.length (note_rows b))) l c u (time b)
             :: note_rows b)
          (follow_up_rows b) (time b) p)
  | InsertFollowUp l n d =>
      (Build_response_of None None,
       mk (lead_rows b) (note_rows b)
          (FollowUp.mk (fresh_id "f" (List.length (follow_up_rows b))) l n d (time b)
             :: follow_up_rows b)
          (time b) p)
  | UpdateStatus i s =>
      (Build_response_of None None,
       mk (map (fun l => if Js.eqb (Lead.id l) i then Lead.with_status s l else l)
               (lead_rows b))
          (note_rows b) (follow_up_rows b) (time b) p)
  end.

Definition serve (b : t) (r : request) : outcome (response r) * t :=
  let f := hd Healthy (plan b) in
  let p := tl (plan b) in
  let failed := mk (lead_rows b) (note_rows b) (follow_up_rows b) (time b) p in
  match f with
  | Healthy => let (v, b') := apply b r p in (Resolved v, b')
  | ReturnsError e => (Resolved (Build_response_of None (Some e)), failed)
  | Rejects e => (Rejected e, failed)
  end.

Definition clock (b : t) : str * t := (time b, b).

End Db.

(** ** src/supabase/migrations/20250804081132_blue_unit.sql *)

Module Sql.

(** The tables of the schema: the seven the migration names and
    [follow_ups], which the HandleCustomer page reads. *)
Inductive relation :=
  | users | products | packages | leads | notes | targets
  | handle_customer_data | follow_ups.

Definition relation_eqb (a b : relation) : bool :=
  match a, b with
  | users, users | products, products | packages, packages | leads, leads
  | notes, notes | targets, targets
  | handle_customer_data, handle_customer_data | follow_ups, follow_ups => true
  | _, _ => false
  end.

(** The columns the INSERT lists for [users]. *)
Record user_row := {
  id : str;
  username : str;
  nama_lengkap : str;
  role : str;
  nomor_wa : str;
  aktif : bool;
  avatar : str
}.

Inductive user_column :=
  | c_username | c_nama_lengkap | c_role | c_nomor_wa | c_aktif | c_avatar.

(** [FOR ...] of a policy. *)
Inductive policy_command := ForAll | ForSelect | ForInsert | ForUpdate | ForDelete.

(** The [USING] expressions of the migration. *)
Inductive using_expr :=
  (** [true] *)
  | UsingTrue
  (** a [users] row for [auth.uid()] that is superadmin, or hc, or the
      admin the lead is assigned to *)
  | UsingLeadRoles
  (** the same, through the note's lead *)
  | UsingNoteLeadRoles
  (** a [users] row for [auth.uid()] with role superadmin or hc *)
  | UsingSuperadminOrHc.

Inductive stmt :=
  (** [DELETE FROM r] *)
  | DeleteFrom (r : relation)
  (** [INSERT INTO users (...) VALUES row ON CONFLICT (id) DO UPDATE SET
      c = EXCLUDED.c] for the columns [c] listed *)
  | InsertUserOnConflictId (row : user_row) (set_columns : list user_column)
  (** [ALTER PUBLICATION supabase_realtime ADD TABLE r] *)
  | AlterPublicationAddTable (r : relation)
  (** [DROP POLICY IF EXISTS name ON r] *)
  | DropPolicyIfExists (name : str) (r : relation)
  (** [CREATE POLICY name ON r FOR cmd USING (u)] *)
  | CreatePolicy (name : str) (r : relation) (cmd : policy_command) (u : using_expr).

Definition admin : user_row :=
  {| id := js "550e8400-e29b-41d4-a716-446655440001";
     username := js "admin";
     nama_lengkap := js "Super Admin";
     role := js "superadmin";
     nomor_wa := js "6281234567890";
     aktif := true;
     avatar := js "https://i.pravatar.cc/150?u=admin" |}.

Definition seed : stmt :=
  InsertUserOnConflictId admin
    [c_username; c_nama_lengkap; c_role; c_nomor_wa; c_aktif; c_avatar].

(** The statements of the file, in order. *)
Definition migration : list stmt :=
  [ DeleteFrom notes;
    DeleteFrom handle_customer_data;
    DeleteFrom leads;
    DeleteFrom targets;
    DeleteFrom packages;
    DeleteFrom products;
    DeleteFrom users;
    seed;
    AlterPublicationAddTable users;
    AlterPublicationAddTable products;
    AlterPublicationAddTable packages;
    AlterPublicationAddTable leads;
    AlterPublicationAddTable notes;
    AlterPublicationAddTable targets;
    AlterPublicationAddTable handle_customer_data;
    DropPolicyIfExists (js "Enable real-time for users") users;
    CreatePolicy (js "Enable real-time for users") users ForSelect UsingTrue;
    DropPolicyIfExists (js "Enable real-time for products") products;
    CreatePolicy (js "Enable real-time for products") products ForSelect UsingTrue;
    DropPolicyIfExists (js "Enable real-time for packages") packages;
    CreatePolicy (js "Enable real-time for packages") packages ForSelect UsingTrue;
    DropPolicyIfExists (js "Enable real-time for leads") leads;
    CreatePolicy (js "Enable real-time for leads") leads ForSelect UsingLeadRoles;
    DropPolicyIfExists (js "Enable real-time for notes") notes;
    CreatePolicy (js "Enable real-time for notes") notes ForSelect UsingNoteLeadRoles;
    DropPolicyIfExists (js "Enable real-time for targets") targets;
    CreatePolicy (js "Enable real-time for targets") targets ForSelect UsingTrue;
    DropPolicyIfExists (js "Enable real-time for handle_customer_data")
      handle_customer_data;
    CreatePolicy (js "Enable real-time for handle_customer_data")
      handle_customer_data ForSelect UsingSuperadminOrHc ].

(** *** The database the statements run on *)

Record policy := {
  policy_name : str;
  policy_table : relation;
  policy_cmd : policy_command;
  policy_using : using_expr
}.

(** [tuple] stands for a row of a table other than [users]; the migration
    never looks inside one. *)
Record db (tuple : Type) := mkDb {
  user_rows : list user_row;
  other_rows : relation -> list tuple;
  publication : list relation;
  policies : list policy
}.
Arguments mkDb {tuple} user_rows other_rows publication policies.
Arguments user_rows {tuple} d.
Arguments other_rows {tuple} d.
Arguments publication {tuple} d.
Arguments policies {tuple} d.

Section Exec.
Variable tuple : Type.

(** Number of rows of a table. *)
Definition cardinality (d : db tuple) (r : relation) : nat :=
  match r with
  | users => List.length (user_rows d)
  | _ => List.length (other_rows d r)
  end.

Definition set_column (excluded : user_row) (c : user_column) (u : user_row) : user_row :=
  match c with
  | c_username =>
      Build_user_row (id u) (username excluded) (nama_lengkap u) (role u)
        (nomor_wa u) (aktif u) (avatar u)
  | c_nama_lengkap =>
      Build_user_row (id u) (username u) (nama_lengkap excluded) (role u)
        (nomor_wa u) (aktif u) (avatar u)
  | c_role =>
      Build_user_row (id u) (username u) (nama_lengkap u) (role excluded)
        (nomor_wa u) (aktif u) (avatar u)
  | c_nomor_wa =>
      Build_user_row (id u) (username u) (nama_lengkap u) (role u)
        (nomor_wa excluded) (aktif u) (avatar u)
  | c_aktif =>
      Build_user_row (id u) (username u) (nama_lengkap u) (role u)
        (nomor_wa u) (aktif excluded) (avatar u)
  | c_avatar =>
      Build_user_row (id u) (username u) (nama_lengkap u) (role u)
        (nomor_wa u) (aktif u) (avatar excluded)
  end.

(** The upsert on the rows of [users]: a row with the key of [excluded]
    gets the listed columns of [excluded]; without one, [excluded] is
    appended. *)
Definition upsert (excluded : user_row) (cols : list user_column)
    (rows : list user_row) : list user_row :=
  if existsb (fun u => Js.eqb (id u) (id excluded)) rows
  then map (fun u => if Js.eqb (id u) (id excluded)
                     then fold_left (fun u c => set_column excluded c u) cols u
                     else u) rows
  else rows ++ [excluded].

Definition same_policy (n : str) (r : relation) (p : policy) : bool :=
  Js.eqb (policy_name p) n && relation_eqb (policy_table p) r.

(** One statement; [None] is an error raised by the database: adding a
    table that is already a member of the publication, or creating a policy
    whose name is taken on that table. *)
Definition exec (s : stmt) (d : db tuple) : option (db tuple) :=
  match s with
  | DeleteFrom r =>
      Some (match r with
            | users => mkDb [] (other_rows d) (publication d) (policies d)
            | _ => mkDb (user_rows d)
                     (fun r' => if relation_eqb r' r then [] else other_rows d r')
                     (publication d) (policies d)
            end)
  | InsertUserOnConflictId row cols =>
      Some (mkDb (upsert row cols (user_rows d)) (other_rows d)
              (publication d) (policies d))
  | AlterPublicationAddTable r =>
      if existsb (relation_eqb r) (publication d) then None
      else Some (mkDb (user_rows d) (other_rows d) (publication d ++ [r]) (policies d))
  | DropPolicyIfExists n r =>
      Some (mkDb (user_rows d) (other_rows d) (publication d)
              (List.filter (fun p => negb (same_policy n r p)) (policies d)))
  | CreatePolicy n r cmd u =>
      if existsb (same_policy n r) (policies d) then None
      else Some (mkDb (user_rows d) (other_rows d) (publication d)
                   (policies d ++ [Build_policy n r cmd u]))
  end.

Fixpoint exec_all (ss : list stmt) (d : db tuple) : option (db tuple) :=
  match ss with
  | [] => Some d
  | s :: ss' =>
      match exec s d with
      | Some d' => exec_all ss' d'
      | None => None
      end
  end.

End Exec.

Arguments cardinality {tuple} d r.
Arguments exec {tuple} s d.
Arguments exec_all {tuple} ss d.



Definition published_tables (ss : list stmt) : list relation :=
  flat_map (fun s => match s with AlterPublicationAddTable r => [r] | _ => [] end) ss.

Definition created_policies (ss : list stmt) : list policy :=
  flat_map (fun s => match s with
                     | CreatePolicy n r c u => [Build_policy n r c u]
                     | _ => []
                     end) ss.

Definition seven : list relation :=
  [notes; handle_customer_data; leads; targets; packages; products; users].

End Sql.

(** ** Observations and sample data used by the statements below *)

(** Number of snapshot fetches of a table among the calls sent. *)
Definition count_select (t : table) (calls : list request) : nat :=
  List.length
    (List.filter (fun r => match r with
                           | Select t' => Table.eqb t t'
                           | _ => false
                           end) calls).

(** The name of a table in the database. *)
Definition table_label (t : table) : str :=
  match t with
  | Table.leads => js "leads"
  | Table.notes => js "notes"
  | Table.follow_ups => js "follow_ups"
  end.

(** A change, of any kind, to a row of table [t] of schema [public]. *)
Definition on_table (t : table) (ev : ChangeEvent) : bool :=
  Js.eqb (ev_schema ev) (js "public") && Js.eqb (ev_table ev) (table_label t).

(** Number of changes to table [t] among the changes published. *)
Definition count_changes (t : table) (evs : list ChangeEvent) : nat :=
  List.length (List.filter (on_table t) evs).

(** Number of changes a channel receives. *)
Definition count_delivered {S} (sub : Subscription S) (evs : list ChangeEvent) : nat :=
  List.length (List.filter (matches (filter sub)) evs).

(** The four status labels of the stats cards. *)
Definition status_labels : list str :=
  [js "new"; js "contacted"; js "qualified"; js "closed"].

(** In how many of the four groups a lead is counted. *)
Definition counted (l : Lead.t) : nat :=
  List.length (List.filter (Js.eqb (Lead.status l)) status_labels).

(** The sum of the four numbers shown by the stats cards. *)
Definition stats_total (v : LeadsPage.View) : nat :=
  match v with
  | LeadsPage.PageView s _ =>
      LeadsPage.new_leads s + LeadsPage.contacted s
      + LeadsPage.qualified s + LeadsPage.closed s
  | LeadsPage.Spinner => 0
  end.

(** The note [addNote] asks the backend to store. *)
Definition is_new_note (st : LeadsPage.State) (n : Note.t) : Prop :=
  exists l, LeadsPage.selectedLead st = Some l
            /\ Note.lead_id n = Lead.id l
            /\ Note.content n = LeadsPage.noteText st
            /\ Note.created_by n = js "current_user".

Module Sample.

Definition ann : Lead.t :=
  Lead.mk (js "L1") (js "Ann") (js "ann@example.com") (js "0811") None
    (js "closed") (js "2025-08-01").

Definition bob : Lead.t :=
  Lead.mk (js "L2") (js "Bob") (js "bob@example.com") (js "0812")
    (Some (js "Package A")) (js "archived") (js "2025-08-02").

Definition orphan_note : Note.t :=
  Note.mk (js "n9") (js "L404") (js "who?") (js "current_user") (js "2025-08-03").

Definition orphan_follow_up : FollowUp.t :=
  FollowUp.mk (js "f9") (js "L404") (js "ring back") (js "2025-08-04") (js "2025-08-03").

Definition denied : PostgrestError := {| message := js "permission denied" |}.

Definition db (p : list Db.fault) : Db.t :=
  Db.mk [ann; bob] [] [] (js "2025-08-04T00:00:00.000Z") p.

(** The Leads page in list view with Ann selected and a note typed. *)
Definition leads_page : LeadsPage.State :=
  LeadsPage.mkState [ann; bob] [] false LeadsPage.list_view (Some ann) (js "hi") false.

Definition leads_world (p : list Db.fault) : World LeadsPage.State Db.t :=
  mkWorld leads_page [] [] (db p).

(** The same page with only blanks typed. *)
Definition leads_page_blank : LeadsPage.State :=
  LeadsPage.mkState [ann; bob] [] false LeadsPage.list_view (Some ann) (js "  ") false.

(** The HandleCustomer page with Ann selected and a follow-up typed. *)
Definition customer_page : HandleCustomerPage.State :=
  HandleCustomerPage.mkState [ann; bob] [] false (Some ann) (js "call") false.

Definition customer_world (p : list Db.fault) : World HandleCustomerPage.State Db.t :=
  mkWorld customer_page [] [] (db p).

Definition customer_page_blank : HandleCustomerPage.State :=
  HandleCustomerPage.mkState [ann; bob] [] false None (js "call") false.

(** The row the backend stores for the note typed on [leads_page]. *)
Definition stored_note : Note.t :=
  Note.mk (js "n0") (js "L1") (js "hi") (js "current_user")
    (js "2025-08-04T00:00:00.000Z").

Definition insert_hi : request :=
  InsertNote (js "L1") (js "hi") (js "current_user").

(** Worlds after the handlers have run against the in-memory backend. *)
Definition after_addNote (p : list Db.fault) : World LeadsPage.State Db.t :=
  snd (run Db.serve Db.clock (LeadsPage.addNote leads_page) (leads_world p)).

Definition after_handleFollowUp (p : list Db.fault) : World HandleCustomerPage.State Db.t :=
  snd (run Db.serve Db.clock (HandleCustomerPage.handleFollowUp customer_page)
         (customer_world p)).

Definition after_updateLeadStatus (p : list Db.fault) : World LeadsPage.State Db.t :=
  snd (run Db.serve Db.clock (LeadsPage.updateLeadStatus (js "L1") (js "new"))
         (leads_world p)).

(** The Leads page with seven notes loaded, the first for a lead that is
    not loaded. *)
Definition notes_page : LeadsPage.State :=
  LeadsPage.mkState [ann; bob]
    (orphan_note
       :: map (fun k => Note.mk (Db.fresh_id "n" k) (js "L1") (js "called")
                          (js "current_user") (js "2025-08-01"))
            (seq 0 6))
    false LeadsPage.list_view None [] false.

(** The HandleCustomer page with twelve follow-ups loaded, the first for a
    lead that is not loaded. *)
Definition follow_ups_page : HandleCustomerPage.State :=
  HandleCustomerPage.mkState [ann; bob]
    (orphan_follow_up
       :: map (fun k => FollowUp.mk (Db.fresh_id "f" k) (js "L2") (js "ring back")
                          (js "2025-08-04") (js "2025-08-01"))
            (seq 0 11))
    false None [] false.

(** A channel that is not one of the Leads page's. *)
Definition users_channel : Subscription LeadsPage.State :=
  {| channel := js "users_changes";
     filter := {| event := js "*"; schema := js "public"; table_name := js "users" |};
     callback := Ret tt |}.

Definition change (k : ChangeKind) (t : string) : ChangeEvent :=
  {| ev_kind := k; ev_schema := js "public"; ev_table := js t |}.

(** Four changes: two to notes, one to leads, one to follow_ups. *)
Definition changes : list ChangeEvent :=
  [change INSERT "notes"; change UPDATE "leads"; change DELETE "notes";
   change INSERT "follow_ups"].

(** The mounted pages after those changes were delivered. *)
Definition leads_after_changes : Mounted LeadsPage.State Db.t :=
  deliver_all Db.serve Db.clock changes
    (LeadsPage.useEffect Db.serve Db.clock false (leads_world [])).

Definition customer_after_changes : Mounted HandleCustomerPage.State Db.t :=
  deliver_all Db.serve Db.clock changes
    (HandleCustomerPage.useEffect Db.serve Db.clock false (customer_world [])).

(** A database with rows everywhere, nothing published, and an old policy. *)
Definition catalogue : Sql.db nat :=
  Sql.mkDb
    [ {| Sql.id := js "550e8400-e29b-41d4-a716-446655440001";
         Sql.username := js "dummy"; Sql.nama_lengkap := js "Dummy";
         Sql.role := js "admin"; Sql.nomor_wa := js "0"; Sql.aktif := false;
         Sql.avatar := js "" |};
      {| Sql.id := js "u2"; Sql.username := js "eve"; Sql.nama_lengkap := js "Eve";
         Sql.role := js "hc"; Sql.nomor_wa := js "1"; Sql.aktif := true;
         Sql.avatar := js "" |} ]
    (fun _ => [1; 2; 3])
    []
    [ {| Sql.policy_name := js "Enable real-time for leads";
         Sql.policy_table := Sql.leads;
         Sql.policy_cmd := Sql.ForSelect;
         Sql.policy_using := Sql.UsingTrue |} ].

(** The same database with leads already in the publication. *)
Definition published_leads : Sql.db nat :=
  Sql.mkDb (Sql.user_rows catalogue) (Sql.other_rows catalogue) [Sql.leads]
    (Sql.policies catalogue).


(** The row the backend stores for the follow-up typed on [customer_page]. *)
Definition stored_follow_up : FollowUp.t :=
  FollowUp.mk (js "f0") (js "L1") (js "call") (js "2025-08-04T00:00:00.000Z")
    (js "2025-08-04T00:00:00.000Z").

Definition insert_call : request :=
  InsertFollowUp (js "L1") (js "call") (js "2025-08-04T00:00:00.000Z").

Definition offline : thrown := Thrown (js "Failed to fetch").

Definition timed_out : thrown := Thrown (js "Request timed out").

(** The Leads page in list view with Ann alone loaded, nothing selected or
    typed. *)
Definition ann_page : LeadsPage.State :=
  LeadsPage.mkState [ann] [] false LeadsPage.list_view None [] false.

(** The Leads page in list view with nothing loaded. *)
Definition empty_page : LeadsPage.State :=
  LeadsPage.mkState [] [] false LeadsPage.list_view None [] false.

(** The catalogue after the migration. *)
Definition migrated : Sql.db nat :=
  Eval vm_compute in
    match Sql.exec_all Sql.migration catalogue with
    | Some d => d
    | None => catalogue
    end.

End Sample.

(** * Properties *)

(** ** Strings and arrays *)

Lemma js_eqb_eq (a b : str) : Js.eqb a b = true <-> a = b.
Proof.
  revert b; induction a as [|x a IH]; intros [|y b]; simpl; split;
    try congruence; try reflexivity.
  - intros H. apply andb_true_iff in H as [Hx Hab].
    apply N.eqb_eq in Hx. apply IH in Hab. congruence.
  - intros H. injection H as -> ->. rewrite N.eqb_refl. simpl. now apply IH.
Qed.

Lemma js_eqb_refl (a : str) : Js.eqb a a = true.
Proof. now apply js_eqb_eq. Qed.

Lemma js_eqb_neq (a b : str) : Js.eqb a b = false <-> a <> b.
Proof.
  split.
  - intros H E. apply js_eqb_eq in E. congruence.
  - intros H. destruct (Js.eqb a b) eqn:E; [|reflexivity].
    apply js_eqb_eq in E. contradiction.
Qed.

Lemma trimStart_blank (s : str) : Js.trimStart s = [] <-> Js.blank s = true.
Proof.
  induction s as [|c s IH]; simpl; [tauto|].
  unfold Js.blank in *. destruct (Js.strippable c); simpl.
  - exact IH.
  - split; discriminate.
Qed.

Lemma trimStart_head (s : str) :
  match Js.trimStart s with
  | [] => True
  | c :: _ => Js.strippable c = false
  end.
Proof.
  induction s as [|c s IH]; simpl; [exact I|].
  destruct (Js.strippable c) eqn:E; [exact IH | exact E].
Qed.

Lemma blank_rev (s : str) : Js.blank (rev s) = Js.blank s.
Proof.
  unfold Js.blank. induction s as [|c s IH]; simpl; [reflexivity|].
  rewrite forallb_app, IH. simpl. rewrite andb_true_r. apply andb_comm.
Qed.

(** [s.trim()] is the empty string exactly when [s] is empty or made of
    white space and line terminators only. *)
Lemma trim_blank (s : str) : Js.trim s = [] <-> Js.blank s = true.
Proof.
  unfold Js.trim, Js.trimEnd. split.
  - intros H.
    assert (H1 : Js.trimStart (rev (Js.trimStart s)) = []).
    { destruct (Js.trimStart (rev (Js.trimStart s))) as [|c t]; [reflexivity|].
      simpl in H. destruct (rev t); discriminate. }
    apply trimStart_blank in H1. rewrite blank_rev in H1.
    pose proof (trimStart_head s) as H2.
    destruct (Js.trimStart s) as [|c t] eqn:E.
    + now apply trimStart_blank.
    + unfold Js.blank in H1. simpl in H1. rewrite H2 in H1. discriminate.
  - intros H. apply trimStart_blank in H. rewrite H. reflexivity.
Qed.

Lemma truthy_trim (s : str) : Js.truthy (Js.trim s) = negb (Js.blank s).
Proof.
  destruct (Js.blank s) eqn:E.
  - apply trim_blank in E. rewrite E. reflexivity.
  - destruct (Js.trim s) eqn:T; [|reflexivity].
    apply trim_blank in T. congruence.
Qed.

(** [a.slice(0, n)] keeps the first [n] elements. *)
Lemma slice_0 {A} (n : nat) (l : list A) :
  Js.slice 0 (Z.of_nat n) l = firstn n l.
Proof.
  unfold Js.slice.
  assert (E0 : (0 <? 0)%Z = false) by reflexivity.
  assert (E1 : (Z.of_nat n <? 0)%Z = false) by (apply Z.ltb_ge; lia).
  rewrite E0, E1.
  assert (E2 : Z.min 0 (Z.of_nat (List.length l)) = 0%Z) by lia.
  rewrite E2. simpl skipn.
  destruct (Nat.le_gt_cases n (List.length l)) as [H|H].
  - replace (Z.to_nat (Z.max (Z.min (Z.of_nat n) (Z.of_nat (List.length l)) - 0) 0))
      with n by lia.
    reflexivity.
  - replace (Z.to_nat (Z.max (Z.min (Z.of_nat n) (Z.of_nat (List.length l)) - 0) 0))
      with (List.length l) by lia.
    rewrite !firstn_all2 by lia. reflexivity.
Qed.

(** ** Handlers against an arbitrary backend *)

Section Handlers.
Variable B : Type.
Variable serve : B -> forall r : request, outcome (response r) * B.
Variable clock : B -> str * B.

Lemma guard_addNote (st : LeadsPage.State) :
  LeadsPage.selectedLead st = None \/ Js.blank (LeadsPage.noteText st) = true ->
  LeadsPage.addNote st = Ret tt.
Proof.
  intros H. unfold LeadsPage.addNote. rewrite truthy_trim.
  destruct H as [-> | ->]; simpl; [reflexivity|].
  now rewrite orb_true_r.
Qed.

Lemma guard_handleFollowUp (st : HandleCustomerPage.State) :
  HandleCustomerPage.selectedLead st = None
  \/ Js.blank (HandleCustomerPage.followUpText st) = true ->
  HandleCustomerPage.handleFollowUp st = Ret tt.
Proof.
  intros H. unfold HandleCustomerPage.handleFollowUp. rewrite truthy_trim.
  destruct H as [-> | ->]; simpl; [reflexivity|].
  now rewrite orb_true_r.
Qed.

(** C4. When no lead is selected, or the text is empty or made of white
    space only, [addNote] and [handleFollowUp] return at the guard: the run
    ends in the world it started in, so no call went over the network and
    the lists, the text, the selection and the submitting flag are as they
    were. *)
Theorem guard_changes_nothing :
  (forall (st : LeadsPage.State) (w : World LeadsPage.State B),
      LeadsPage.selectedLead st = None \/ Js.blank (LeadsPage.noteText st) = true ->
      run serve clock (LeadsPage.addNote st) w = (Returned tt, w))
  /\ (forall (st : HandleCustomerPage.State) (w : World HandleCustomerPage.State B),
      HandleCustomerPage.selectedLead st = None
      \/ Js.blank (HandleCustomerPage.followUpText st) = true ->
      run serve clock (HandleCustomerPage.handleFollowUp st) w = (Returned tt, w)).
Proof.
  split; intros st w H.
  - rewrite (guard_addNote st H). reflexivity.
  - rewrite (guard_handleFollowUp st H). reflexivity.
Qed.

(** A fetch whose call resolves without data. *)
Ltac fetch_without_data :=
  intros w r b Hs Hd; destruct r as [d e]; simpl in Hd; subst d;
  simpl; rewrite Hs; reflexivity.

(** C6. A snapshot fetch whose call comes back without data ends normally
    and leaves the component state and the console as they were: the list
    stays stale (or empty) and nothing is shown or logged. *)
Theorem fetch_failure_swallowed :
  (forall (w : World LeadsPage.State B) r b,
      serve (backend w) (Select Table.leads) = (Resolved r, b) ->
      data r = None ->
      run serve clock LeadsPage.fetchLeads w
      = (Returned tt, mkWorld (page w) (console w) (wire w ++ [Select Table.leads]) b))
  /\ (forall (w : World LeadsPage.State B) r b,
      serve (backend w) (Select Table.notes) = (Resolved r, b) ->
      data r = None ->
      run serve clock LeadsPage.fetchNotes w
      = (Returned tt, mkWorld (page w) (console w) (wire w ++ [Select Table.notes]) b))
  /\ (forall (w : World HandleCustomerPage.State B) r b,
      serve (backend w) (Select Table.leads) = (Resolved r, b) ->
      data r = None ->
      run serve clock HandleCustomerPage.fetchLeads w
      = (Returned tt, mkWorld (page w) (console w) (wire w ++ [Select Table.leads]) b))
  /\ (forall (w : World HandleCustomerPage.State B) r b,
      serve (backend w) (Select Table.follow_ups) = (Resolved r, b) ->
      data r = None ->
      run serve clock HandleCustomerPage.fetchFollowUps w
      = (Returned tt,
         mkWorld (page w) (console w) (wire w ++ [Select Table.follow_ups]) b)).
Proof.
  repeat split; fetch_without_data.
Qed.

(** The run of [addNote] when the insert resolves without an error and
    the refetch resolves with a snapshot. *)
Lemma addNote_refetched
    (st : LeadsPage.State) (l : Lead.t) (w : World LeadsPage.State B)
    (d : option unit) (b1 : B) (rows : list Note.t)
    (e : option PostgrestError) (b2 : B) :
  LeadsPage.selectedLead st = Some l ->
  Js.blank (LeadsPage.noteText st) = false ->
  serve (backend w)
        (InsertNote (Lead.id l) (LeadsPage.noteText st) (js "current_user"))
  = (Resolved (Build_response_of d None), b1) ->
  serve b1 (Select Table.notes) = (Resolved (Build_response_of (Some rows) e), b2) ->
  run serve clock (LeadsPage.addNote st) w
  = (Returned tt,
     mkWorld
       (LeadsPage.mkState (LeadsPage.leads (page w)) rows
          (LeadsPage.loading (page w)) (LeadsPage.viewMode (page w)) None [] false)
       (console w)
       ((wire w ++ [InsertNote (Lead.id l) (LeadsPage.noteText st) (js "current_user")])
        ++ [Select Table.notes])
       b2).
Proof.
  intros Hsel Hblank Hins Hfetch.
  unfold LeadsPage.addNote.
  rewrite truthy_trim, Hsel, Hblank. simpl.
  rewrite Hins. simpl. rewrite Hfetch. reflexivity.
Qed.

(** The run of [addNote] when the insert resolves without an error and
    the refetch resolves without data. *)
Lemma addNote_not_refetched
    (st : LeadsPage.State) (l : Lead.t) (w : World LeadsPage.State B)
    (d : option unit) (b1 : B) (e : option PostgrestError) (b2 : B) :
  LeadsPage.selectedLead st = Some l ->
  Js.blank (LeadsPage.noteText st) = false ->
  serve (backend w)
        (InsertNote (Lead.id l) (LeadsPage.noteText st) (js "current_user"))
  = (Resolved (Build_response_of d None), b1) ->
  serve b1 (Select Table.notes) = (Resolved (Build_response_of None e), b2) ->
  run serve clock (LeadsPage.addNote st) w
  = (Returned tt,
     mkWorld
       (LeadsPage.mkState (LeadsPage.leads (page w)) (LeadsPage.notes (page w))
          (LeadsPage.loading (page w)) (LeadsPage.viewMode (page w)) None [] false)
       (console w)
       ((wire w ++ [InsertNote (Lead.id l) (LeadsPage.noteText st) (js "current_user")])
        ++ [Select Table.notes])
       b2).
Proof.
  intros Hsel Hblank Hins Hfetch.
  unfold LeadsPage.addNote.
  rewrite truthy_trim, Hsel, Hblank. simpl.
  rewrite Hins. simpl. rewrite Hfetch. reflexivity.
Qed.

End Handlers.

(** ** Change feed *)

Lemma count_select_app (t : table) (a b : list request) :
  count_select t (a ++ b) = count_select t a + count_select t b.
Proof.
  unfold count_select. now rewrite filter_app, length_app.
Qed.

Lemma count_select_one (t t' : table) :
  count_select t [Select t'] = if Table.eqb t t' then 1 else 0.
Proof.
  unfold count_select. simpl. now destruct (Table.eqb t t').
Qed.

Lemma js_eqb_sym (a b : str) : Js.eqb a b = Js.eqb b a.
Proof.
  destruct (Js.eqb b a) eqn:E.
  - apply js_eqb_eq in E. subst. apply js_eqb_refl.
  - apply js_eqb_neq in E. apply js_eqb_neq. congruence.
Qed.

(** A channel whose filter is every event of table [t] of schema public
    receives exactly the changes to that table. *)
Lemma channel_receives_table_changes {S} (sub : Subscription S) (t : table)
    (evs : list ChangeEvent) :
  filter sub = {| event := js "*"; schema := js "public"; table_name := table_label t |} ->
  count_delivered sub evs = count_changes t evs.
Proof.
  intros Hf. unfold count_delivered, count_changes. f_equal.
  apply filter_ext. intros ev. rewrite Hf. unfold matches, on_table.
  cbn [event schema table_name].
  rewrite js_eqb_refl. cbn [orb andb].
  now rewrite (js_eqb_sym (js "public")), (js_eqb_sym (table_label t)).
Qed.

Section Subscriptions.
Variable B : Type.
Variable serve : B -> forall r : request, outcome (response r) * B.
Variable clock : B -> str * B.

(** Every fetch sends exactly its one snapshot call, however it is answered. *)
Ltac one_call :=
  intros w; simpl;
  match goal with
  | |- context [serve ?b ?r] => destruct (serve b r) as [[[[d|] e]|x] b']
  end; reflexivity.

Lemma wire_fetchLeads (w : World LeadsPage.State B) :
  wire (snd (run serve clock LeadsPage.fetchLeads w)) = wire w ++ [Select Table.leads].
Proof. revert w. one_call. Qed.

Lemma wire_fetchNotes (w : World LeadsPage.State B) :
  wire (snd (run serve clock LeadsPage.fetchNotes w)) = wire w ++ [Select Table.notes].
Proof. revert w. one_call. Qed.

Lemma wire_customer_fetchLeads (w : World HandleCustomerPage.State B) :
  wire (snd (run serve clock HandleCustomerPage.fetchLeads w))
  = wire w ++ [Select Table.leads].
Proof. revert w. one_call. Qed.

Lemma wire_fetchFollowUps (w : World HandleCustomerPage.State B) :
  wire (snd (run serve clock HandleCustomerPage.fetchFollowUps w))
  = wire w ++ [Select Table.follow_ups].
Proof. revert w. one_call. Qed.

(** Delivering changes to the two channels of the Leads page. *)
Lemma leads_page_refetches (evs : list ChangeEvent) :
  forall m : Mounted LeadsPage.State B,
    channels m = [LeadsPage.leadsSubscription; LeadsPage.notesSubscription] ->
    count_select Table.leads (wire (world (deliver_all serve clock evs m)))
    = count_select Table.leads (wire (world m))
      + count_delivered LeadsPage.leadsSubscription evs
    /\ count_select Table.notes (wire (world (deliver_all serve clock evs m)))
       = count_select Table.notes (wire (world m))
         + count_delivered LeadsPage.notesSubscription evs.
Proof.
  induction evs as [|ev evs IH]; intros m Hm.
  - unfold count_delivered. cbn [deliver_all fold_left List.filter List.length].
    now rewrite !Nat.add_0_r.
  - simpl deliver_all.
    destruct (IH (deliver serve clock ev m) Hm) as [IHl IHn].
    rewrite IHl, IHn. clear IH IHl IHn.
    unfold deliver, count_delivered. simpl world. rewrite Hm.
    cbn [fold_left List.filter filter callback
         LeadsPage.leadsSubscription LeadsPage.notesSubscription].
    destruct (matches _ ev); destruct (matches _ ev);
      rewrite ?wire_fetchNotes, ?wire_fetchLeads, ?count_select_app,
        ?count_select_one;
      simpl; split; lia.
Qed.

(** Delivering changes to the two channels of the HandleCustomer page. *)
Lemma customer_page_refetches (evs : list ChangeEvent) :
  forall m : Mounted HandleCustomerPage.State B,
    channels m = [HandleCustomerPage.leadsSubscription;
                  HandleCustomerPage.followUpsSubscription] ->
    count_select Table.leads (wire (world (deliver_all serve clock evs m)))
    = count_select Table.leads (wire (world m))
      + count_delivered HandleCustomerPage.leadsSubscription evs
    /\ count_select Table.follow_ups (wire (world (deliver_all serve clock evs m)))
       = count_select Table.follow_ups (wire (world m))
         + count_delivered HandleCustomerPage.followUpsSubscription evs.
Proof.
  induction evs as [|ev evs IH]; intros m Hm.
  - unfold count_delivered. cbn [deliver_all fold_left List.filter List.length].
    now rewrite !Nat.add_0_r.
  - simpl deliver_all.
    destruct (IH (deliver serve clock ev m) Hm) as [IHl IHn].
    rewrite IHl, IHn. clear IH IHl IHn.
    unfold deliver, count_delivered. simpl world. rewrite Hm.
    cbn [fold_left List.filter filter callback
         HandleCustomerPage.leadsSubscription
         HandleCustomerPage.followUpsSubscription].
    destruct (matches _ ev); destruct (matches _ ev);
      rewrite ?wire_fetchFollowUps, ?wire_customer_fetchLeads, ?count_select_app,
        ?count_select_one;
      simpl; split; lia.
Qed.

(** C5. On a mounted page, the snapshot fetches of a subscribed table sent
    while a sequence of changes is delivered are as many as the changes to
    that table of schema public in the sequence: every change to the table
    reaches the page's channel and triggers one full refetch, none merged
    or dropped. This holds for leads and notes on the Leads page and for
    leads and follow_ups on the HandleCustomer page. *)
Theorem one_refetch_per_change :
  (forall (second_first : bool) (w : World LeadsPage.State B) (evs : list ChangeEvent),
      count_select Table.leads
        (wire (world (deliver_all serve clock evs
                        (LeadsPage.useEffect serve clock second_first w))))
      = count_select Table.leads
          (wire (world (LeadsPage.useEffect serve clock second_first w)))
        + count_changes Table.leads evs
      /\ count_select Table.notes
           (wire (world (deliver_all serve clock evs
                           (LeadsPage.useEffect serve clock second_first w))))
         = count_select Table.notes
             (wire (world (LeadsPage.useEffect serve clock second_first w)))
           + count_changes Table.notes evs)
  /\ (forall (second_first : bool) (w : World HandleCustomerPage.State B)
             (evs : list ChangeEvent),
      count_select Table.leads
        (wire (world (deliver_all serve clock evs
                        (HandleCustomerPage.useEffect serve clock second_first w))))
      = count_select Table.leads
          (wire (world (HandleCustomerPage.useEffect serve clock second_first w)))
        + count_changes Table.leads evs
      /\ count_select Table.follow_ups
           (wire (world (deliver_all serve clock evs
                           (HandleCustomerPage.useEffect serve clock second_first w))))
         = count_select Table.follow_ups
             (wire (world (HandleCustomerPage.useEffect serve clock second_first w)))
           + count_changes Table.follow_ups evs).
Proof.
  split; intros second_first w evs.
  - rewrite <- (channel_receives_table_changes LeadsPage.leadsSubscription Table.leads),
            <- (channel_receives_table_changes LeadsPage.notesSubscription Table.notes)
      by reflexivity.
    now apply leads_page_refetches.
  - rewrite <- (channel_receives_table_changes HandleCustomerPage.leadsSubscription
                  Table.leads),
            <- (channel_receives_table_changes HandleCustomerPage.followUpsSubscription
                  Table.follow_ups)
      by reflexivity.
    now apply customer_page_refetches.
Qed.

End Subscriptions.

(** ** Runs against the in-memory backend *)

Lemma guard_changes_nothing_witness :
  run Db.serve Db.clock (LeadsPage.addNote Sample.leads_page_blank) (Sample.leads_world [])
  = (Returned tt, Sample.leads_world [])
  /\ run Db.serve Db.clock (HandleCustomerPage.handleFollowUp Sample.customer_page_blank)
       (Sample.customer_world [])
     = (Returned tt, Sample.customer_world []).
Proof.
  split.
  - apply (proj1 (guard_changes_nothing Db.t Db.serve Db.clock)). right. reflexivity.
  - apply (proj2 (guard_changes_nothing Db.t Db.serve Db.clock)). left. reflexivity.
Defined.

Lemma fetch_failure_swallowed_witness :
  run Db.serve Db.clock LeadsPage.fetchLeads
    (Sample.leads_world [Db.ReturnsError Sample.denied])
  = (Returned tt, mkWorld Sample.leads_page [] [Select Table.leads] (Sample.db []))
  /\ run Db.serve Db.clock LeadsPage.fetchNotes
       (Sample.leads_world [Db.ReturnsError Sample.denied])
     = (Returned tt, mkWorld Sample.leads_page [] [Select Table.notes] (Sample.db []))
  /\ run Db.serve Db.clock HandleCustomerPage.fetchLeads
       (Sample.customer_world [Db.ReturnsError Sample.denied])
     = (Returned tt, mkWorld Sample.customer_page [] [Select Table.leads] (Sample.db []))
  /\ run Db.serve Db.clock HandleCustomerPage.fetchFollowUps
       (Sample.customer_world [Db.ReturnsError Sample.denied])
     = (Returned tt,
        mkWorld Sample.customer_page [] [Select Table.follow_ups] (Sample.db [])).
Proof.
  pose proof (fetch_failure_swallowed Db.t Db.serve Db.clock) as (H1 & H2 & H3 & H4).
  split; [|split; [|split]].
  - apply (H1 (Sample.leads_world [Db.ReturnsError Sample.denied])
              (Build_response_of None (Some Sample.denied)) (Sample.db []));
      reflexivity.
  - apply (H2 (Sample.leads_world [Db.ReturnsError Sample.denied])
              (Build_response_of None (Some Sample.denied)) (Sample.db []));
      reflexivity.
  - apply (H3 (Sample.customer_world [Db.ReturnsError Sample.denied])
              (Build_response_of None (Some Sample.denied)) (Sample.db []));
      reflexivity.
  - apply (H4 (Sample.customer_world [Db.ReturnsError Sample.denied])
              (Build_response_of None (Some Sample.denied)) (Sample.db []));
      reflexivity.
Defined.

(** C1, as the code has it. With a lead selected and a text that is not
    blank, when the backend stores the insert and answers the refetch it
    triggers with its snapshot, the notes list is that snapshot and holds
    the new note (the selected lead's id, the text as typed, created by
    'current_user'), [noteText] is the empty string, [selectedLead] is
    [null] and submitting is off. For every backend: when the insert
    resolves without an error and the refetch resolves with a snapshot, the
    notes list is that snapshot, and when the refetch resolves without
    data, the notes list is what it was; in both cases [noteText] is the
    empty string and [selectedLead] is [null]. *)
Theorem addNote_success :
  (forall (st : LeadsPage.State) (l : Lead.t) (w : World LeadsPage.State Db.t),
      LeadsPage.selectedLead st = Some l ->
      Js.blank (LeadsPage.noteText st) = false ->
      hd Db.Healthy (Db.plan (backend w)) = Db.Healthy ->
      hd Db.Healthy (tl (Db.plan (backend w))) = Db.Healthy ->
      (exists n,
          In n (LeadsPage.notes
                  (page (snd (run Db.serve Db.clock (LeadsPage.addNote st) w))))
          /\ is_new_note st n)
      /\ LeadsPage.notes (page (snd (run Db.serve Db.clock (LeadsPage.addNote st) w)))
         = Db.note_rows (backend (snd (run Db.serve Db.clock (LeadsPage.addNote st) w)))
      /\ LeadsPage.noteText
           (page (snd (run Db.serve Db.clock (LeadsPage.addNote st) w))) = []
      /\ LeadsPage.selectedLead
           (page (snd (run Db.serve Db.clock (LeadsPage.addNote st) w))) = None
      /\ LeadsPage.submitting
           (page (snd (run Db.serve Db.clock (LeadsPage.addNote st) w))) = false)
  /\ (forall (B : Type) (serve : B -> forall r : request, outcome (response r) * B)
             (clock : B -> str * B)
             (st : LeadsPage.State) (l : Lead.t) (w : World LeadsPage.State B)
             (d : option unit) (b1 : B) (data : option (list Note.t))
             (e : option PostgrestError) (b2 : B),
      LeadsPage.selectedLead st = Some l ->
      Js.blank (LeadsPage.noteText st) = false ->
      serve (backend w)
            (InsertNote (Lead.id l) (LeadsPage.noteText st) (js "current_user"))
      = (Resolved (Build_response_of d None), b1) ->
      serve b1 (Select Table.notes) = (Resolved (Build_response_of data e), b2) ->
      LeadsPage.notes (page (snd (run serve clock (LeadsPage.addNote st) w)))
      = match data with
        | Some rows => rows
        | None => LeadsPage.notes (page w)
        end
      /\ LeadsPage.noteText (page (snd (run serve clock (LeadsPage.addNote st) w))) = []
      /\ LeadsPage.selectedLead (page (snd (run serve clock (LeadsPage.addNote st) w)))
         = None
      /\ LeadsPage.submitting (page (snd (run serve clock (LeadsPage.addNote st) w)))
         = false
      /\ wire (snd (run serve clock (LeadsPage.addNote st) w))
         = (wire w ++ [InsertNote (Lead.id l) (LeadsPage.noteText st)
                         (js "current_user")])
           ++ [Select Table.notes]).
Proof.
  split.
  - intros st l [pg c wr [ls ns fs t p]] Hsel Hblank H1 H2.
    cbn [backend Db.plan] in H1, H2.
    assert (Hrun : run Db.serve Db.clock (LeadsPage.addNote st)
                     (mkWorld pg c wr (Db.mk ls ns fs t p))
                   = (Returned tt,
                      mkWorld
                        (LeadsPage.mkState (LeadsPage.leads pg)
                           (Note.mk (Db.fresh_id "n" (List.length ns)) (Lead.id l)
                              (LeadsPage.noteText st) (js "current_user") t :: ns)
                           (LeadsPage.loading pg) (LeadsPage.viewMode pg) None [] false)
                        c
                        ((wr ++ [InsertNote (Lead.id l) (LeadsPage.noteText st)
                                   (js "current_user")])
                         ++ [Select Table.notes])
                        (Db.mk ls
                           (Note.mk (Db.fresh_id "n" (List.length ns)) (Lead.id l)
                              (LeadsPage.noteText st) (js "current_user") t :: ns)
                           fs t (tl (tl p))))).
    { apply (addNote_refetched Db.t Db.serve Db.clock st l
               (mkWorld pg c wr (Db.mk ls ns fs t p)) None
               (Db.mk ls
                  (Note.mk (Db.fresh_id "n" (List.length ns)) (Lead.id l)
                     (LeadsPage.noteText st) (js "current_user") t :: ns)
                  fs t (tl p))
               _ None _ Hsel Hblank).
      - unfold Db.serve. cbn [backend Db.plan]. rewrite H1. reflexivity.
      - unfold Db.serve. cbn [Db.plan]. rewrite H2. reflexivity. }
    rewrite Hrun. cbn [snd page backend LeadsPage.notes LeadsPage.noteText
                       LeadsPage.selectedLead LeadsPage.submitting Db.note_rows].
    split; [|repeat split].
    eexists. split; [left; reflexivity|].
    exists l. cbn [Note.lead_id Note.content Note.created_by]. repeat split. exact Hsel.
  - intros B serve clock st l w d b1 [rows|] e b2 Hsel Hblank Hins Hfetch.
    + rewrite (addNote_refetched B serve clock st l w d b1 rows e b2
                 Hsel Hblank Hins Hfetch).
      repeat split.
    + rewrite (addNote_not_refetched B serve clock st l w d b1 e b2
                 Hsel Hblank Hins Hfetch).
      repeat split.
Qed.

Lemma addNote_success_witness :
  ((exists n,
       In n (LeadsPage.notes (page (Sample.after_addNote []))) /\
       is_new_note Sample.leads_page n)
   /\ LeadsPage.notes (page (Sample.after_addNote []))
      = Db.note_rows (backend (Sample.after_addNote []))
   /\ LeadsPage.noteText (page (Sample.after_addNote [])) = []
   /\ LeadsPage.selectedLead (page (Sample.after_addNote [])) = None
   /\ LeadsPage.submitting (page (Sample.after_addNote [])) = false)
  /\ (LeadsPage.notes
        (page (Sample.after_addNote [Db.Healthy; Db.ReturnsError Sample.denied]))
      = LeadsPage.notes Sample.leads_page
      /\ LeadsPage.noteText
           (page (Sample.after_addNote [Db.Healthy; Db.ReturnsError Sample.denied])) = []
      /\ LeadsPage.selectedLead
           (page (Sample.after_addNote [Db.Healthy; Db.ReturnsError Sample.denied]))
         = None
      /\ LeadsPage.submitting
           (page (Sample.after_addNote [Db.Healthy; Db.ReturnsError Sample.denied]))
         = false
      /\ wire (Sample.after_addNote [Db.Healthy; Db.ReturnsError Sample.denied])
         = [Sample.insert_hi; Select Table.notes]).
Proof.
  destruct addNote_success as [Hdb Hany].
  split.
  - apply (Hdb Sample.leads_page Sample.ann (Sample.leads_world [])); reflexivity.
  - apply (Hany Db.t Db.serve Db.clock Sample.leads_page Sample.ann
             (Sample.leads_world [Db.Healthy; Db.ReturnsError Sample.denied]) None
             (Db.mk [Sample.ann; Sample.bob] [Sample.stored_note] []
                (js "2025-08-04T00:00:00.000Z") [Db.ReturnsError Sample.denied])
             None (Some Sample.denied)
             (Db.mk [Sample.ann; Sample.bob] [Sample.stored_note] []
                (js "2025-08-04T00:00:00.000Z") []));
      reflexivity.
Defined.

(** C1, as stated, fails: the insert succeeds and the backend stores the
    note, the refetch comes back without data, and the notes list of the
    page does not hold the new note. *)
Lemma addNote_refetch_without_data :
  LeadsPage.selectedLead Sample.leads_page = Some Sample.ann
  /\ Js.blank (LeadsPage.noteText Sample.leads_page) = false
  /\ fst (Db.serve (Sample.db [Db.Healthy; Db.ReturnsError Sample.denied])
            Sample.insert_hi)
     = Resolved (Build_response_of None None)
  /\ In Sample.stored_note
       (Db.note_rows
          (backend (Sample.after_addNote [Db.Healthy; Db.ReturnsError Sample.denied])))
  /\ is_new_note Sample.leads_page Sample.stored_note
  /\ ~ (exists n,
          In n (LeadsPage.notes
                  (page (Sample.after_addNote
                           [Db.Healthy; Db.ReturnsError Sample.denied])))
          /\ is_new_note Sample.leads_page n).
Proof.
  split; [reflexivity|].
  split; [reflexivity|].
  split; [reflexivity|].
  split; [left; reflexivity|].
  split.
  - exists Sample.ann. repeat split.
  - intros (n & Hin & _). exact Hin.
Qed.

(** ** Status updates *)

Lemma with_status_in_update (rows : list Lead.t) (l : Lead.t) (s : str) :
  In l rows ->
  In (Lead.with_status s l)
     (map (fun x => if Js.eqb (Lead.id x) (Lead.id l) then Lead.with_status s x else x)
          rows).
Proof.
  intros H. apply in_map_iff. exists l. split; [|exact H].
  now rewrite js_eqb_refl.
Qed.

(** C2. On both pages [updateLeadStatus] starts with the update call for the
    status it was given: nothing is read or compared before it, so there is
    no check of the transition. A backend that applies every update it
    receives stores the new status whatever the lead's status was, and the
    refetch that follows shows it on the page, with nothing logged. *)
Theorem updateLeadStatus_unconstrained :
  (forall leadId newStatus : str,
      exists k, LeadsPage.updateLeadStatus leadId newStatus
                = Call (UpdateStatus leadId newStatus) k)
  /\ (forall leadId status : str,
      exists k, HandleCustomerPage.updateLeadStatus leadId status
                = Call (UpdateStatus leadId status) k)
  /\ (forall (w : World LeadsPage.State Db.t) (l : Lead.t) (newStatus : str),
      Db.plan (backend w) = [] ->
      In l (Db.lead_rows (backend w)) ->
      In (Lead.with_status newStatus l)
         (LeadsPage.leads
            (page (snd (run Db.serve Db.clock
                          (LeadsPage.updateLeadStatus (Lead.id l) newStatus) w))))
      /\ In (Lead.with_status newStatus l)
            (Db.lead_rows
               (backend (snd (run Db.serve Db.clock
                                (LeadsPage.updateLeadStatus (Lead.id l) newStatus) w))))
      /\ console (snd (run Db.serve Db.clock
                         (LeadsPage.updateLeadStatus (Lead.id l) newStatus) w))
         = console w)
  /\ (forall (w : World HandleCustomerPage.State Db.t) (l : Lead.t) (status : str),
      Db.plan (backend w) = [] ->
      In l (Db.lead_rows (backend w)) ->
      In (Lead.with_status status l)
         (HandleCustomerPage.leads
            (page (snd (run Db.serve Db.clock
                          (HandleCustomerPage.updateLeadStatus (Lead.id l) status) w))))
      /\ In (Lead.with_status status l)
            (Db.lead_rows
               (backend (snd (run Db.serve Db.clock
                                (HandleCustomerPage.updateLeadStatus (Lead.id l) status)
                                w))))
      /\ console (snd (run Db.serve Db.clock
                         (HandleCustomerPage.updateLeadStatus (Lead.id l) status) w))
         = console w).
Proof.
  split; [intros; eexists; reflexivity|].
  split; [intros; eexists; reflexivity|].
  split.
  - intros [st c wr [ls ns fs t p]] l s Hp Hin. simpl in Hp, Hin. subst p.
    cbn. repeat split; now apply with_status_in_update.
  - intros [st c wr [ls ns fs t p]] l s Hp Hin. simpl in Hp, Hin. subst p.
    cbn. repeat split; now apply with_status_in_update.
Qed.

Lemma updateLeadStatus_unconstrained_witness :
  Lead.status Sample.ann = js "closed"
  /\ In (Lead.with_status (js "new") Sample.ann)
        (LeadsPage.leads (page (Sample.after_updateLeadStatus [])))
  /\ In (Lead.with_status (js "new") Sample.ann)
        (Db.lead_rows (backend (Sample.after_updateLeadStatus [])))
  /\ console (Sample.after_updateLeadStatus []) = [].
Proof.
  split; [reflexivity|].
  destruct updateLeadStatus_unconstrained as (_ & _ & H & _).
  apply (H (Sample.leads_world []) Sample.ann (js "new")).
  - reflexivity.
  - left. reflexivity.
Defined.

(** ** Failing writes *)

Section WriteFailures.
Variable B : Type.
Variable serve : B -> forall r : request, outcome (response r) * B.
Variable clock : B -> str * B.

(** A rejected insert reaches the [catch]: it is logged, and [finally]
    turns the submitting flag off; text and selection are kept. *)
Lemma addNote_rejected
    (st : LeadsPage.State) (l : Lead.t) (w : World LeadsPage.State B)
    (x : thrown) (b1 : B) :
  LeadsPage.selectedLead st = Some l ->
  Js.blank (LeadsPage.noteText st) = false ->
  serve (backend w)
        (InsertNote (Lead.id l) (LeadsPage.noteText st) (js "current_user"))
  = (Rejected x, b1) ->
  run serve clock (LeadsPage.addNote st) w
  = (Returned tt,
     mkWorld (LeadsPage.setSubmitting false (LeadsPage.setSubmitting true (page w)))
       (console w ++ [(js "Error adding note:", x)])
       (wire w ++ [InsertNote (Lead.id l) (LeadsPage.noteText st) (js "current_user")])
       b1).
Proof.
  intros Hsel Hblank Hins. unfold LeadsPage.addNote.
  rewrite truthy_trim, Hsel, Hblank. simpl. rewrite Hins. reflexivity.
Qed.

(** An insert that resolves to an error object skips the success branch and
    never reaches the [catch]: nothing is logged. *)
Lemma addNote_error_object
    (st : LeadsPage.State) (l : Lead.t) (w : World LeadsPage.State B)
    (d : option unit) (e : PostgrestError) (b1 : B) :
  LeadsPage.selectedLead st = Some l ->
  Js.blank (LeadsPage.noteText st) = false ->
  serve (backend w)
        (InsertNote (Lead.id l) (LeadsPage.noteText st) (js "current_user"))
  = (Resolved (Build_response_of d (Some e)), b1) ->
  run serve clock (LeadsPage.addNote st) w
  = (Returned tt,
     mkWorld (LeadsPage.setSubmitting false (LeadsPage.setSubmitting true (page w)))
       (console w)
       (wire w ++ [InsertNote (Lead.id l) (LeadsPage.noteText st) (js "current_user")])
       b1).
Proof.
  intros Hsel Hblank Hins. unfold LeadsPage.addNote.
  rewrite truthy_trim, Hsel, Hblank. simpl. rewrite Hins. reflexivity.
Qed.

Lemma handleFollowUp_rejected
    (st : HandleCustomerPage.State) (l : Lead.t)
    (w : World HandleCustomerPage.State B) (t : str) (b0 : B) (x : thrown) (b1 : B) :
  HandleCustomerPage.selectedLead st = Some l ->
  Js.blank (HandleCustomerPage.followUpText st) = false ->
  clock (backend w) = (t, b0) ->
  serve b0 (InsertFollowUp (Lead.id l) (HandleCustomerPage.followUpText st) t)
  = (Rejected x, b1) ->
  run serve clock (HandleCustomerPage.handleFollowUp st) w
  = (Returned tt,
     mkWorld (HandleCustomerPage.setSubmitting false
                (HandleCustomerPage.setSubmitting true (page w)))
       (console w ++ [(js "Error adding follow-up:", x)])
       (wire w ++ [InsertFollowUp (Lead.id l) (HandleCustomerPage.followUpText st) t])
       b1).
Proof.
  intros Hsel Hblank Hclock Hins. unfold HandleCustomerPage.handleFollowUp.
  rewrite truthy_trim, Hsel, Hblank. simpl. rewrite Hclock. simpl.
  rewrite Hins. reflexivity.
Qed.

Lemma handleFollowUp_error_object
    (st : HandleCustomerPage.State) (l : Lead.t)
    (w : World HandleCustomerPage.State B) (t : str) (b0 : B)
    (d : option unit) (e : PostgrestError) (b1 : B) :
  HandleCustomerPage.selectedLead st = Some l ->
  Js.blank (HandleCustomerPage.followUpText st) = false ->
  clock (backend w) = (t, b0) ->
  serve b0 (InsertFollowUp (Lead.id l) (HandleCustomerPage.followUpText st) t)
  = (Resolved (Build_response_of d (Some e)), b1) ->
  run serve clock (HandleCustomerPage.handleFollowUp st) w
  = (Returned tt,
     mkWorld (HandleCustomerPage.setSubmitting false
                (HandleCustomerPage.setSubmitting true (page w)))
       (console w)
       (wire w ++ [InsertFollowUp (Lead.id l) (HandleCustomerPage.followUpText st) t])
       b1).
Proof.
  intros Hsel Hblank Hclock Hins. unfold HandleCustomerPage.handleFollowUp.
  rewrite truthy_trim, Hsel, Hblank. simpl. rewrite Hclock. simpl.
  rewrite Hins. reflexivity.
Qed.

Lemma updateLeadStatus_rejected
    (w : World LeadsPage.State B) (leadId newStatus : str) (x : thrown) (b1 : B) :
  serve (backend w) (UpdateStatus leadId newStatus) = (Rejected x, b1) ->
  run serve clock (LeadsPage.updateLeadStatus leadId newStatus) w
  = (Returned tt,
     mkWorld (page w) (console w ++ [(js "Error updating lead status:", x)])
       (wire w ++ [UpdateStatus leadId newStatus]) b1).
Proof.
  intros Hupd. simpl. rewrite Hupd. reflexivity.
Qed.

Lemma updateLeadStatus_error_object
    (w : World LeadsPage.State B) (leadId newStatus : str)
    (d : option unit) (e : PostgrestError) (b1 : B) :
  serve (backend w) (UpdateStatus leadId newStatus)
  = (Resolved (Build_response_of d (Some e)), b1) ->
  run serve clock (LeadsPage.updateLeadStatus leadId newStatus) w
  = (Returned tt,
     mkWorld (page w) (console w) (wire w ++ [UpdateStatus leadId newStatus]) b1).
Proof.
  intros Hupd. simpl. rewrite Hupd. reflexivity.
Qed.

End WriteFailures.

(** C3 at a failing write reported as an error object. The insert of
    [addNote] and of [handleFollowUp] and the update of [updateLeadStatus]
    resolve to [{ data: null, error }]: the console stays empty in all
    three, the page is as it was (submitting off, the text and the selection
    kept) and no refetch is sent. The same writes, when their promise
    rejects, are logged by the [catch]. *)
Theorem write_error_object_not_logged :
  (console (Sample.after_addNote [Db.ReturnsError Sample.denied]) = []
   /\ page (Sample.after_addNote [Db.ReturnsError Sample.denied]) = Sample.leads_page
   /\ wire (Sample.after_addNote [Db.ReturnsError Sample.denied]) = [Sample.insert_hi])
  /\ (console (Sample.after_handleFollowUp [Db.ReturnsError Sample.denied]) = []
      /\ page (Sample.after_handleFollowUp [Db.ReturnsError Sample.denied])
         = Sample.customer_page)
  /\ (console (Sample.after_updateLeadStatus [Db.ReturnsError Sample.denied]) = []
      /\ page (Sample.after_updateLeadStatus [Db.ReturnsError Sample.denied])
         = Sample.leads_page)
  /\ console (Sample.after_addNote [Db.Rejects (Thrown (js "Failed to fetch"))])
     = [(js "Error adding note:", Thrown (js "Failed to fetch"))]
  /\ console (Sample.after_handleFollowUp [Db.Rejects (Thrown (js "Failed to fetch"))])
     = [(js "Error adding follow-up:", Thrown (js "Failed to fetch"))]
  /\ console (Sample.after_updateLeadStatus [Db.Rejects (Thrown (js "Failed to fetch"))])
     = [(js "Error updating lead status:", Thrown (js "Failed to fetch"))].
Proof.
  repeat split.
Qed.

(** ** Rendering *)

Lemma find_no_match {A} (f : A -> bool) (l : list A) :
  (forall x, In x l -> f x = false) -> Js.find f l = None.
Proof.
  unfold Js.find. induction l as [|a l IH]; intros H; simpl; [reflexivity|].
  rewrite (H a (or_introl eq_refl)). apply IH.
  intros x Hx. apply H. now right.
Qed.

Lemma nth_error_map_firstn {A C} (f : A -> C) (n : nat) (l : list A) (i : nat) (c : C) :
  nth_error (map f (firstn n l)) i = Some c ->
  i < n /\ exists x, nth_error l i = Some x /\ c = f x.
Proof.
  revert n l. induction i as [|i IH]; intros [|n] [|a l]; simpl; try discriminate.
  - intros H. injection H as <-. split; [lia|]. now exists a.
  - intros H. destruct (IH n l H) as (Hlt & x & Hx & Hc).
    split; [lia|]. now exists x.
Qed.

Lemma rendered_notes_eq (st : LeadsPage.State) :
  LeadsPage.rendered_notes (LeadsPage.render st)
  = if LeadsPage.loading st then []
    else match LeadsPage.viewMode st with
         | LeadsPage.kanban => []
         | LeadsPage.list_view =>
             map (LeadsPage.render_note st) (firstn 5 (LeadsPage.notes st))
         end.
Proof.
  unfold LeadsPage.render.
  destruct (LeadsPage.loading st); [reflexivity|].
  destruct (LeadsPage.viewMode st); [reflexivity|].
  simpl. now rewrite (slice_0 5).
Qed.

Lemma rendered_follow_ups_eq (st : HandleCustomerPage.State) :
  HandleCustomerPage.rendered_follow_ups (HandleCustomerPage.render st)
  = if HandleCustomerPage.loading st then []
    else map (HandleCustomerPage.render_follow_up st)
             (firstn 10 (HandleCustomerPage.followUps st)).
Proof.
  unfold HandleCustomerPage.render.
  destruct (HandleCustomerPage.loading st); [reflexivity|].
  simpl. now rewrite (slice_0 10).
Qed.

Lemma rendered_note_source (st : LeadsPage.State) (i : nat) (card : LeadsPage.NoteCard) :
  nth_error (LeadsPage.rendered_notes (LeadsPage.render st)) i = Some card ->
  i < 5 /\ exists note, nth_error (LeadsPage.notes st) i = Some note
                        /\ card = LeadsPage.render_note st note.
Proof.
  rewrite rendered_notes_eq.
  destruct (LeadsPage.loading st); [destruct i; discriminate|].
  destruct (LeadsPage.viewMode st); [destruct i; discriminate|].
  apply nth_error_map_firstn.
Qed.

Lemma rendered_follow_up_source (st : HandleCustomerPage.State) (i : nat)
    (card : HandleCustomerPage.FollowUpCard) :
  nth_error (HandleCustomerPage.rendered_follow_ups (HandleCustomerPage.render st)) i
  = Some card ->
  i < 10 /\ exists followUp,
      nth_error (HandleCustomerPage.followUps st) i = Some followUp
      /\ card = HandleCustomerPage.render_follow_up st followUp.
Proof.
  rewrite rendered_follow_ups_eq.
  destruct (HandleCustomerPage.loading st); [destruct i; discriminate|].
  apply nth_error_map_firstn.
Qed.

Lemma note_title_unknown (st : LeadsPage.State) (note : Note.t) :
  (forall l, In l (LeadsPage.leads st) -> Lead.id l <> Note.lead_id note) ->
  LeadsPage.note_title (LeadsPage.render_note st note) = js "Unknown Lead".
Proof.
  intros H. unfold LeadsPage.render_note. simpl.
  rewrite find_no_match; [reflexivity|].
  intros l Hl. apply js_eqb_neq. now apply H.
Qed.

Lemma follow_up_title_unknown (st : HandleCustomerPage.State) (followUp : FollowUp.t) :
  (forall l, In l (HandleCustomerPage.leads st) ->
             Lead.id l <> FollowUp.lead_id followUp) ->
  HandleCustomerPage.follow_up_title (HandleCustomerPage.render_follow_up st followUp)
  = js "Unknown Lead".
Proof.
  intros H. unfold HandleCustomerPage.render_follow_up. simpl.
  rewrite find_no_match; [reflexivity|].
  intros l Hl. apply js_eqb_neq. now apply H.
Qed.

(** C7. Every entry shown in Recent Notes or Recent Follow-ups comes from
    the note or follow-up at its position, and when no loaded lead has the
    id that row refers to, the entry is produced all the same and its title
    is the literal "Unknown Lead". *)
Theorem unknown_lead_fallback :
  (forall (st : LeadsPage.State) (i : nat) (card : LeadsPage.NoteCard),
      nth_error (LeadsPage.rendered_notes (LeadsPage.render st)) i = Some card ->
      exists note,
        nth_error (LeadsPage.notes st) i = Some note
        /\ card = LeadsPage.render_note st note
        /\ ((forall l, In l (LeadsPage.leads st) -> Lead.id l <> Note.lead_id note) ->
            LeadsPage.note_title card = js "Unknown Lead"))
  /\ (forall (st : HandleCustomerPage.State) (i : nat)
             (card : HandleCustomerPage.FollowUpCard),
      nth_error (HandleCustomerPage.rendered_follow_ups (HandleCustomerPage.render st)) i
      = Some card ->
      exists followUp,
        nth_error (HandleCustomerPage.followUps st) i = Some followUp
        /\ card = HandleCustomerPage.render_follow_up st followUp
        /\ ((forall l, In l (HandleCustomerPage.leads st) ->
                       Lead.id l <> FollowUp.lead_id followUp) ->
            HandleCustomerPage.follow_up_title card = js "Unknown Lead")).
Proof.
  split; intros st i card H.
  - destruct (rendered_note_source st i card H) as (_ & note & Hn & ->).
    exists note. repeat split; [exact Hn|]. apply note_title_unknown.
  - destruct (rendered_follow_up_source st i card H) as (_ & fu & Hn & ->).
    exists fu. repeat split; [exact Hn|]. apply follow_up_title_unknown.
Qed.

(** C9. Recent Notes shows at most five entries and Recent Follow-ups at
    most ten, in every state: the entry at position [i] exists only for
    [i] below the limit and is the rendering of the row at position [i] of
    the loaded list, so no row past the limit is shown. Once loaded, the
    list view shows exactly the first five notes, and the HandleCustomer
    page exactly the first ten follow-ups. *)
Theorem recent_panels_bounded :
  (forall st : LeadsPage.State,
      List.length (LeadsPage.rendered_notes (LeadsPage.render st)) <= 5
      /\ (forall i card,
             nth_error (LeadsPage.rendered_notes (LeadsPage.render st)) i = Some card ->
             i < 5 /\ exists note, nth_error (LeadsPage.notes st) i = Some note
                                   /\ card = LeadsPage.render_note st note)
      /\ (LeadsPage.loading st = false ->
          LeadsPage.viewMode st = LeadsPage.list_view ->
          LeadsPage.rendered_notes (LeadsPage.render st)
          = map (LeadsPage.render_note st) (firstn 5 (LeadsPage.notes st))))
  /\ (forall st : HandleCustomerPage.State,
      List.length (HandleCustomerPage.rendered_follow_ups (HandleCustomerPage.render st))
      <= 10
      /\ (forall i card,
             nth_error (HandleCustomerPage.rendered_follow_ups
                          (HandleCustomerPage.render st)) i = Some card ->
             i < 10 /\ exists followUp,
                 nth_error (HandleCustomerPage.followUps st) i = Some followUp
                 /\ card = HandleCustomerPage.render_follow_up st followUp)
      /\ (HandleCustomerPage.loading st = false ->
          HandleCustomerPage.rendered_follow_ups (HandleCustomerPage.render st)
          = map (HandleCustomerPage.render_follow_up st)
                (firstn 10 (HandleCustomerPage.followUps st)))).
Proof.
  split; intros st; split; [| split | | split].
  - rewrite rendered_notes_eq.
    destruct (LeadsPage.loading st); [simpl; lia|].
    destruct (LeadsPage.viewMode st); [simpl; lia|].
    rewrite length_map. apply firstn_le_length.
  - apply rendered_note_source.
  - intros Hl Hv. now rewrite rendered_notes_eq, Hl, Hv.
  - rewrite rendered_follow_ups_eq.
    destruct (HandleCustomerPage.loading st); [simpl; lia|].
    rewrite length_map. apply firstn_le_length.
  - apply rendered_follow_up_source.
  - intros Hl. now rewrite rendered_follow_ups_eq, Hl.
Qed.

(** ** Status groups *)

Lemma getLeadsByStatus_spec (st : LeadsPage.State) (s : str) (l : Lead.t) :
  In l (LeadsPage.getLeadsByStatus st s)
  <-> In l (LeadsPage.leads st) /\ Lead.status l = s.
Proof.
  unfold LeadsPage.getLeadsByStatus. rewrite filter_In.
  now rewrite js_eqb_eq.
Qed.

Lemma status_labels_NoDup : NoDup status_labels.
Proof.
  unfold status_labels.
  repeat constructor; simpl; intros H;
    repeat (destruct H as [H|H]; [discriminate H|]); exact H.
Qed.

Lemma counted_le_1 (l : Lead.t) : counted l <= 1.
Proof.
  unfold counted, status_labels. simpl.
  destruct (Js.eqb (Lead.status l) (js "new")) eqn:E1;
  destruct (Js.eqb (Lead.status l) (js "contacted")) eqn:E2;
  destruct (Js.eqb (Lead.status l) (js "qualified")) eqn:E3;
  destruct (Js.eqb (Lead.status l) (js "closed")) eqn:E4;
  simpl; try lia; exfalso;
  repeat match goal with
         | H : Js.eqb _ _ = true |- _ => apply js_eqb_eq in H
         end;
  match goal with
  | H1 : Lead.status l = _, H2 : Lead.status l = _ |- _ =>
      rewrite H1 in H2; vm_compute in H2; discriminate H2
  end.
Qed.

Lemma stats_total_counted (ls : list Lead.t) :
  List.length (List.filter (fun lead => Js.eqb (Lead.status lead) (js "new")) ls)
  + List.length (List.filter (fun lead => Js.eqb (Lead.status lead) (js "contacted")) ls)
  + List.length (List.filter (fun lead => Js.eqb (Lead.status lead) (js "qualified")) ls)
  + List.length (List.filter (fun lead => Js.eqb (Lead.status lead) (js "closed")) ls)
  = list_sum (map counted ls).
Proof.
  induction ls as [|a ls IH]; [reflexivity|].
  change (list_sum (map counted (a :: ls)))
    with (counted a + list_sum (map counted ls)).
  rewrite <- IH. cbn [List.filter].
  unfold counted, status_labels. cbn [List.filter].
  destruct (Js.eqb (Lead.status a) (js "new"));
  destruct (Js.eqb (Lead.status a) (js "contacted"));
  destruct (Js.eqb (Lead.status a) (js "qualified"));
  destruct (Js.eqb (Lead.status a) (js "closed"));
  cbn [List.length]; lia.
Qed.

Lemma list_sum_counted_le (ls : list Lead.t) :
  list_sum (map counted ls) <= List.length ls.
Proof.
  induction ls as [|a ls IH]; simpl; [lia|].
  pose proof (counted_le_1 a). lia.
Qed.

(** C10. For every list of leads: a lead is in the group of a status
    exactly when it is in the list with that status, so two groups of
    different statuses share no lead, a lead whose status is one of the
    four labels is in the group of that label and in no other, and a lead
    with another status is in none of the four. The four numbers of the
    stats cards add up to at most the number of leads, and to strictly less
    on some list. *)
Theorem status_groups_partition :
  (forall (st : LeadsPage.State) (s1 s2 : str) (l : Lead.t),
      s1 <> s2 ->
      In l (LeadsPage.getLeadsByStatus st s1) ->
      ~ In l (LeadsPage.getLeadsByStatus st s2))
  /\ (forall (st : LeadsPage.State) (l : Lead.t),
      In l (LeadsPage.leads st) ->
      In (Lead.status l) status_labels ->
      In l (LeadsPage.getLeadsByStatus st (Lead.status l))
      /\ forall s, In l (LeadsPage.getLeadsByStatus st s) -> s = Lead.status l)
  /\ (forall (st : LeadsPage.State) (l : Lead.t),
      ~ In (Lead.status l) status_labels ->
      forall s, In s status_labels -> ~ In l (LeadsPage.getLeadsByStatus st s))
  /\ (forall st : LeadsPage.State,
      LeadsPage.loading st = false ->
      stats_total (LeadsPage.render st) <= List.length (LeadsPage.leads st))
  /\ (exists st : LeadsPage.State,
      LeadsPage.loading st = false
      /\ stats_total (LeadsPage.render st) < List.length (LeadsPage.leads st)).
Proof.
  split; [|split; [|split; [|split]]].
  - intros st s1 s2 l Hne H1 H2.
    apply getLeadsByStatus_spec in H1 as [_ H1].
    apply getLeadsByStatus_spec in H2 as [_ H2]. congruence.
  - intros st l Hin _. split.
    + now apply getLeadsByStatus_spec.
    + intros s Hs. apply getLeadsByStatus_spec in Hs as [_ Hs]. now symmetry.
  - intros st l Hout s Hs Hin.
    apply getLeadsByStatus_spec in Hin as [_ Hin]. congruence.
  - intros st Hl. unfold LeadsPage.render. rewrite Hl.
    unfold stats_total. cbn [LeadsPage.new_leads LeadsPage.contacted
                             LeadsPage.qualified LeadsPage.closed].
    unfold LeadsPage.getLeadsByStatus.
    rewrite stats_total_counted. apply list_sum_counted_le.
  - exists Sample.leads_page. split; [reflexivity|]. vm_compute. lia.
Qed.

(** ** The migration *)

Lemma relation_eqb_eq (a b : Sql.relation) : Sql.relation_eqb a b = true <-> a = b.
Proof.
  destruct a, b; simpl; split; intros H; try reflexivity; discriminate H.
Qed.

Lemma not_member (r : Sql.relation) (pub : list Sql.relation) :
  ~ In r pub -> existsb (Sql.relation_eqb r) pub = false.
Proof.
  intros H. destruct (existsb (Sql.relation_eqb r) pub) eqn:E; [|reflexivity].
  apply existsb_exists in E as (x & Hx & Hr).
  apply relation_eqb_eq in Hr. subst x. contradiction.
Qed.

Lemma existsb_filter_negb {A} (f : A -> bool) (l : list A) :
  existsb f (List.filter (fun x => negb (f x)) l) = false.
Proof.
  induction l as [|a l IH]; simpl; [reflexivity|].
  destruct (f a) eqn:E; simpl; [exact IH|].
  now rewrite E, IH.
Qed.


Lemma exec_all_cons {tuple} (s : Sql.stmt) (ss : list Sql.stmt) (d : Sql.db tuple) :
  Sql.exec_all (s :: ss) d
  = match Sql.exec s d with
    | Some d' => Sql.exec_all ss d'
    | None => None
    end.
Proof. reflexivity. Qed.

Lemma incl_filter_l {A} (f : A -> bool) (l m : list A) :
  incl l m -> incl (List.filter f l) m.
Proof.
  intros H x Hx. apply H. apply filter_In in Hx. tauto.
Qed.

Lemma filter_keep {A} (f : A -> bool) (x : A) :
  f x = true -> List.filter f [x] = [x].
Proof.
  intros H. simpl. now rewrite H.
Qed.

(** On a database that publishes none of the seven tables yet, the
    migration runs to its end; afterwards [users] holds the administrator
    alone, the six other tables are empty, [follow_ups] is as it was, the
    seven tables have joined the publication, and the policies are the old
    ones that were not dropped followed by the seven created. *)
Lemma migration_runs {tuple} (d : Sql.db tuple) :
  (forall r, In r Sql.seven -> ~ In r (Sql.publication d)) ->
  exists d',
    Sql.exec_all Sql.migration d = Some d'
    /\ Sql.user_rows d' = [Sql.admin]
    /\ (forall r, In r Sql.seven ->
                  Sql.cardinality d' r = if Sql.relation_eqb r Sql.users then 1 else 0)
    /\ Sql.other_rows d' Sql.follow_ups = Sql.other_rows d Sql.follow_ups
    /\ Sql.publication d' = Sql.publication d ++ Sql.published_tables Sql.migration
    /\ exists kept,
        Sql.policies d' = kept ++ Sql.created_policies Sql.migration
        /\ incl kept (Sql.policies d).
Proof.
  intros H. destruct d as [U O P Pol]. cbn [Sql.publication] in H.
  assert (Hn : forall r, In r Sql.seven -> existsb (Sql.relation_eqb r) P = false).
  { intros r Hr. apply not_member. now apply H. }
  pose proof (Hn Sql.users ltac:(vm_compute; tauto)) as H1.
  pose proof (Hn Sql.products ltac:(vm_compute; tauto)) as H2.
  pose proof (Hn Sql.packages ltac:(vm_compute; tauto)) as H3.
  pose proof (Hn Sql.leads ltac:(vm_compute; tauto)) as H4.
  pose proof (Hn Sql.notes ltac:(vm_compute; tauto)) as H5.
  pose proof (Hn Sql.targets ltac:(vm_compute; tauto)) as H6.
  pose proof (Hn Sql.handle_customer_data ltac:(vm_compute; tauto)) as H7.
  unfold Sql.migration, Sql.seed.
  repeat (rewrite exec_all_cons;
          cbn [Sql.exec Sql.user_rows Sql.other_rows Sql.publication Sql.policies
               existsb Sql.relation_eqb orb];
          rewrite ?existsb_app, ?H1, ?H2, ?H3, ?H4, ?H5, ?H6, ?H7, ?existsb_filter_negb;
          cbn [existsb Sql.relation_eqb orb]).
  eexists. split; [reflexivity|].
  cbn [Sql.user_rows Sql.other_rows Sql.publication Sql.policies].
  split; [reflexivity|].
  split.
  { intros r Hr. destruct r; try reflexivity.
    vm_compute in Hr. repeat (destruct Hr as [Hr|Hr]; [discriminate Hr|]).
    contradiction. }
  split; [reflexivity|].
  split; [now rewrite <- !app_assoc|].
  rewrite !filter_app.
  rewrite !filter_keep by (vm_compute; reflexivity).
  rewrite <- !app_assoc.
  match goal with
  | |- exists kept, ?old ++ _ = _ /\ _ => exists old
  end.
  split.
  - reflexivity.
  - repeat apply incl_filter_l. apply incl_refl.
Qed.




(** ** Runs of the rendering and migration statements on the samples *)

Lemma unknown_lead_fallback_witness :
  LeadsPage.note_title (LeadsPage.render_note Sample.notes_page Sample.orphan_note)
  = js "Unknown Lead"
  /\ HandleCustomerPage.follow_up_title
       (HandleCustomerPage.render_follow_up Sample.follow_ups_page
          Sample.orphan_follow_up)
     = js "Unknown Lead".
Proof.
  split.
  - destruct (proj1 unknown_lead_fallback Sample.notes_page 0
                (LeadsPage.render_note Sample.notes_page Sample.orphan_note) eq_refl)
      as (note & Hn & _ & Ht).
    cbn in Hn. injection Hn as <-. apply Ht.
    intros l [<-|[<-|[]]] E; vm_compute in E; discriminate E.
  - destruct (proj2 unknown_lead_fallback Sample.follow_ups_page 0
                (HandleCustomerPage.render_follow_up Sample.follow_ups_page
                   Sample.orphan_follow_up) eq_refl)
      as (fu & Hn & _ & Ht).
    cbn in Hn. injection Hn as <-. apply Ht.
    intros l [<-|[<-|[]]] E; vm_compute in E; discriminate E.
Defined.

Lemma recent_panels_bounded_witness :
  (List.length (LeadsPage.notes Sample.notes_page) = 7
   /\ List.length (LeadsPage.rendered_notes (LeadsPage.render Sample.notes_page)) <= 5
   /\ LeadsPage.rendered_notes (LeadsPage.render Sample.notes_page)
      = map (LeadsPage.render_note Sample.notes_page)
            (firstn 5 (LeadsPage.notes Sample.notes_page)))
  /\ (List.length (HandleCustomerPage.followUps Sample.follow_ups_page) = 12
      /\ List.length (HandleCustomerPage.rendered_follow_ups
                        (HandleCustomerPage.render Sample.follow_ups_page)) <= 10
      /\ HandleCustomerPage.rendered_follow_ups
           (HandleCustomerPage.render Sample.follow_ups_page)
         = map (HandleCustomerPage.render_follow_up Sample.follow_ups_page)
               (firstn 10 (HandleCustomerPage.followUps Sample.follow_ups_page))).
Proof.
  destruct recent_panels_bounded as [HL HC].
  destruct (HL Sample.notes_page) as (Hlen & _ & Heq).
  destruct (HC Sample.follow_ups_page) as (Hlen' & _ & Heq').
  split; (split; [reflexivity|split]).
  - exact Hlen.
  - apply Heq; reflexivity.
  - exact Hlen'.
  - apply Heq'; reflexivity.
Defined.

Lemma status_groups_partition_witness :
  ~ In Sample.ann (LeadsPage.getLeadsByStatus Sample.leads_page (js "new"))
  /\ In Sample.ann (LeadsPage.getLeadsByStatus Sample.leads_page (js "closed"))
  /\ ~ In Sample.bob (LeadsPage.getLeadsByStatus Sample.leads_page (js "qualified"))
  /\ stats_total (LeadsPage.render Sample.leads_page)
     <= List.length (LeadsPage.leads Sample.leads_page).
Proof.
  destruct status_groups_partition as (Hdisj & Hin & Hout & Hle & _).
  assert (Hann : In Sample.ann (LeadsPage.getLeadsByStatus Sample.leads_page
                                  (Lead.status Sample.ann))).
  { apply (Hin Sample.leads_page Sample.ann).
    - left. reflexivity.
    - right. right. right. left. reflexivity. }
  split; [|split; [|split]].
  - apply (Hdisj Sample.leads_page (js "closed") (js "new") Sample.ann).
    + intros E. vm_compute in E. discriminate E.
    + exact Hann.
  - exact Hann.
  - apply (Hout Sample.leads_page Sample.bob).
    + intros H. vm_compute in H.
      repeat (destruct H as [H|H]; [discriminate H|]). exact H.
    + right. right. left. reflexivity.
  - apply Hle. reflexivity.
Defined.

Lemma one_refetch_per_change_witness :
  (count_select Table.leads (wire (world (Sample.leads_after_changes))) = 1 + 1
   /\ count_select Table.notes (wire (world (Sample.leads_after_changes))) = 1 + 2)
  /\ (count_select Table.leads (wire (world (Sample.customer_after_changes))) = 1 + 1
      /\ count_select Table.follow_ups (wire (world (Sample.customer_after_changes)))
         = 1 + 1).
Proof.
  destruct (one_refetch_per_change Db.t Db.serve Db.clock) as [HL HC].
  split.
  - exact (HL false (Sample.leads_world []) Sample.changes).
  - exact (HC false (Sample.customer_world []) Sample.changes).
Defined.

(** * Further properties of the pages *)

(** ** The first fetch *)

Section FirstFetch.
Variable B : Type.
Variable serve : B -> forall r : request, outcome (response r) * B.
Variable clock : B -> str * B.

(** X1. When both snapshot calls of [fetchData] resolve, with or without data,
    the run ends normally with [loading] off; each list is the snapshot
    received, or what it was when the call brought no data; the two calls
    go out in the order leads, then the second table. This holds whichever
    answer comes back first. *)
Theorem fetchData_resolved :
  (forall (second_first : bool) (w : World LeadsPage.State B) r1 b1 r2 b2,
      serve (backend w) (Select Table.leads) = (Resolved r1, b1) ->
      serve b1 (Select Table.notes) = (Resolved r2, b2) ->
      run serve clock (LeadsPage.fetchData second_first) w
      = (Returned tt,
         mkWorld
           (LeadsPage.mkState
              (match data r1 with Some d => d | None => LeadsPage.leads (page w) end)
              (match data r2 with Some d => d | None => LeadsPage.notes (page w) end)
              false (LeadsPage.viewMode (page w)) (LeadsPage.selectedLead (page w))
              (LeadsPage.noteText (page w)) (LeadsPage.submitting (page w)))
           (console w)
           ((wire w ++ [Select Table.leads]) ++ [Select Table.notes]) b2))
  /\ (forall (second_first : bool) (w : World HandleCustomerPage.State B) r1 b1 r2 b2,
      serve (backend w) (Select Table.leads) = (Resolved r1, b1) ->
      serve b1 (Select Table.follow_ups) = (Resolved r2, b2) ->
      run serve clock (HandleCustomerPage.fetchData second_first) w
      = (Returned tt,
         mkWorld
           (HandleCustomerPage.mkState
              (match data r1 with
               | Some d => d
               | None => HandleCustomerPage.leads (page w)
               end)
              (match data r2 with
               | Some d => d
               | None => HandleCustomerPage.followUps (page w)
               end)
              false (HandleCustomerPage.selectedLead (page w))
              (HandleCustomerPage.followUpText (page w))
              (HandleCustomerPage.submitting (page w)))
           (console w)
           ((wire w ++ [Select Table.leads]) ++ [Select Table.follow_ups]) b2)).
Proof.
  split; intros [|] w [[d1|] e1] b1 [[d2|] e2] b2 H1 H2;
    simpl; rewrite H1; simpl; rewrite H2; reflexivity.
Qed.

(** X2. When a snapshot call of [fetchData] rejects, [setLoading(false)]
    is never reached: [loading] stays on and the page renders the spinner,
    and the promise of [fetchData] rejects. It rejects with the error of
    the call that rejected when only one did, and with the error that came
    back first when both did. *)
Theorem fetchData_rejected_keeps_spinner :
  (forall (second_first : bool) (w : World LeadsPage.State B)
          (o1 : outcome (response (Select Table.leads))) (b1 : B)
          (o2 : outcome (response (Select Table.notes))) (b2 : B),
      serve (backend w) (Select Table.leads) = (o1, b1) ->
      serve b1 (Select Table.notes) = (o2, b2) ->
      (forall e1, o1 = Rejected e1 ->
         LeadsPage.loading
           (page (snd (run serve clock (LeadsPage.fetchData second_first) w))) = true
         /\ LeadsPage.render
              (page (snd (run serve clock (LeadsPage.fetchData second_first) w)))
            = LeadsPage.Spinner
         /\ ((forall r2, o2 = Resolved r2 ->
                fst (run serve clock (LeadsPage.fetchData second_first) w)
                = Uncaught e1)
             /\ (forall e2, o2 = Rejected e2 ->
                   fst (run serve clock (LeadsPage.fetchData second_first) w)
                   = Uncaught (if second_first then e2 else e1))))
      /\ (forall e2, o2 = Rejected e2 ->
            LeadsPage.loading
              (page (snd (run serve clock (LeadsPage.fetchData second_first) w))) = true
            /\ LeadsPage.render
                 (page (snd (run serve clock (LeadsPage.fetchData second_first) w)))
               = LeadsPage.Spinner
            /\ (forall r1, o1 = Resolved r1 ->
                  fst (run serve clock (LeadsPage.fetchData second_first) w)
                  = Uncaught e2)))
  /\ (forall (second_first : bool) (w : World HandleCustomerPage.State B)
             (o1 : outcome (response (Select Table.leads))) (b1 : B)
             (o2 : outcome (response (Select Table.follow_ups))) (b2 : B),
      serve (backend w) (Select Table.leads) = (o1, b1) ->
      serve b1 (Select Table.follow_ups) = (o2, b2) ->
      (forall e1, o1 = Rejected e1 ->
         HandleCustomerPage.loading
           (page (snd (run serve clock (HandleCustomerPage.fetchData second_first) w)))
         = true
         /\ HandleCustomerPage.render
              (page (snd (run serve clock (HandleCustomerPage.fetchData second_first) w)))
            = HandleCustomerPage.Spinner
         /\ ((forall r2, o2 = Resolved r2 ->
                fst (run serve clock (HandleCustomerPage.fetchData second_first) w)
                = Uncaught e1)
             /\ (forall e2, o2 = Rejected e2 ->
                   fst (run serve clock (HandleCustomerPage.fetchData second_first) w)
                   = Uncaught (if second_first then e2 else e1))))
      /\ (forall e2, o2 = Rejected e2 ->
            HandleCustomerPage.loading
              (page (snd (run serve clock (HandleCustomerPage.fetchData second_first) w)))
            = true
            /\ HandleCustomerPage.render
                 (page (snd (run serve clock
                               (HandleCustomerPage.fetchData second_first) w)))
               = HandleCustomerPage.Spinner
            /\ (forall r1, o1 = Resolved r1 ->
                  fst (run serve clock (HandleCustomerPage.fetchData second_first) w)
                  = Uncaught e2))).
Proof.
  split; intros race w o1 b1 o2 b2 H1 H2; (split; [intros e1 ->|intros e2 ->]);
    simpl; rewrite H1; simpl; rewrite H2;
    destruct race;
    try (destruct o2 as [[[d2|] x2]|y2]);
    try (destruct o1 as [[[d1|] x1]|y1]);
    simpl; repeat split; intros; try discriminate;
    try match goal with
        | H : Rejected _ = Rejected _ |- _ => injection H as <-
        end;
    reflexivity.
Qed.

End FirstFetch.

(** ** Every way a write can go *)

Section WriteOutcomes.
Variable B : Type.
Variable serve : B -> forall r : request, outcome (response r) * B.
Variable clock : B -> str * B.

(** Case analysis on how the backend answers the calls of a run. *)
Ltac answers :=
  repeat (simpl;
          match goal with
          | |- context [clock ?b] => destruct (clock b) as [? ?]
          | |- context [serve ?b ?r] => destruct (serve b r) as [[[[?|] [?|]]|?] ?]
          end);
  simpl.

(** X3. [addNote] and [handleFollowUp] never reject, whatever the backend does
    and whatever state they were created in, and they never leave the
    submitting flag on: a page that was not submitting before the call is
    not submitting after it. *)
Theorem write_handlers_settle :
  (forall (st : LeadsPage.State) (w : World LeadsPage.State B),
      fst (run serve clock (LeadsPage.addNote st) w) = Returned tt
      /\ (LeadsPage.submitting (page w) = false ->
          LeadsPage.submitting (page (snd (run serve clock (LeadsPage.addNote st) w)))
          = false))
  /\ (forall (st : HandleCustomerPage.State) (w : World HandleCustomerPage.State B),
      fst (run serve clock (HandleCustomerPage.handleFollowUp st) w) = Returned tt
      /\ (HandleCustomerPage.submitting (page w) = false ->
          HandleCustomerPage.submitting
            (page (snd (run serve clock (HandleCustomerPage.handleFollowUp st) w)))
          = false)).
Proof.
  split; intros st w.
  - unfold LeadsPage.addNote.
    destruct (LeadsPage.selectedLead st) as [l|];
      destruct (Js.truthy (Js.trim (LeadsPage.noteText st)));
      answers; split; auto.
  - unfold HandleCustomerPage.handleFollowUp.
    destruct (HandleCustomerPage.selectedLead st) as [l|];
      destruct (Js.truthy (Js.trim (HandleCustomerPage.followUpText st)));
      answers; split; auto.
Qed.

(** X4. [updateLeadStatus] never rejects either, on both pages, and the only
    part of the component state it can change is the leads list: the
    selection, the typed text, the other list and the flags are kept. *)
Theorem updateLeadStatus_settles :
  (forall (leadId newStatus : str) (w : World LeadsPage.State B),
      fst (run serve clock (LeadsPage.updateLeadStatus leadId newStatus) w)
      = Returned tt
      /\ page (snd (run serve clock (LeadsPage.updateLeadStatus leadId newStatus) w))
         = LeadsPage.setLeads
             (LeadsPage.leads
                (page (snd (run serve clock
                              (LeadsPage.updateLeadStatus leadId newStatus) w))))
             (page w))
  /\ (forall (leadId status : str) (w : World HandleCustomerPage.State B),
      fst (run serve clock (HandleCustomerPage.updateLeadStatus leadId status) w)
      = Returned tt
      /\ page (snd (run serve clock
                      (HandleCustomerPage.updateLeadStatus leadId status) w))
         = HandleCustomerPage.setLeads
             (HandleCustomerPage.leads
                (page (snd (run serve clock
                              (HandleCustomerPage.updateLeadStatus leadId status) w))))
             (page w)).
Proof.
  split; intros leadId s [[] c wr b]; answers; split; reflexivity.
Qed.

(** X5. A fetch touches nothing but its own list, however the call is
    answered: the other list, the selection, the typed text, the flags and
    the console are as before. In particular a selected lead stays selected
    when the new snapshot no longer holds it. *)
Theorem fetch_changes_own_list_only :
  (forall w : World LeadsPage.State B,
      page (snd (run serve clock LeadsPage.fetchLeads w))
      = LeadsPage.setLeads
          (LeadsPage.leads (page (snd (run serve clock LeadsPage.fetchLeads w))))
          (page w)
      /\ console (snd (run serve clock LeadsPage.fetchLeads w)) = console w)
  /\ (forall w : World LeadsPage.State B,
      page (snd (run serve clock LeadsPage.fetchNotes w))
      = LeadsPage.setNotes
          (LeadsPage.notes (page (snd (run serve clock LeadsPage.fetchNotes w))))
          (page w)
      /\ console (snd (run serve clock LeadsPage.fetchNotes w)) = console w)
  /\ (forall w : World HandleCustomerPage.State B,
      page (snd (run serve clock HandleCustomerPage.fetchLeads w))
      = HandleCustomerPage.setLeads
          (HandleCustomerPage.leads
             (page (snd (run serve clock HandleCustomerPage.fetchLeads w))))
          (page w)
      /\ console (snd (run serve clock HandleCustomerPage.fetchLeads w)) = console w)
  /\ (forall w : World HandleCustomerPage.State B,
      page (snd (run serve clock HandleCustomerPage.fetchFollowUps w))
      = HandleCustomerPage.setFollowUps
          (HandleCustomerPage.followUps
             (page (snd (run serve clock HandleCustomerPage.fetchFollowUps w))))
          (page w)
      /\ console (snd (run serve clock HandleCustomerPage.fetchFollowUps w))
         = console w).
Proof.
  split; [|split; [|split]]; intros [[] c wr b]; answers; split; reflexivity.
Qed.

(** X6. The calls of one [addNote]: none at all, or the insert for the selected
    lead with the text exactly as typed, or that insert followed by one
    refetch of notes. Never a second insert, never another lead. For
    [handleFollowUp] the same, the insert carrying the clock's reading. *)
Theorem write_handlers_calls :
  (forall (st : LeadsPage.State) (w : World LeadsPage.State B),
      wire (snd (run serve clock (LeadsPage.addNote st) w)) = wire w
      \/ exists l,
          LeadsPage.selectedLead st = Some l
          /\ (wire (snd (run serve clock (LeadsPage.addNote st) w))
              = wire w ++ [InsertNote (Lead.id l) (LeadsPage.noteText st)
                             (js "current_user")]
              \/ wire (snd (run serve clock (LeadsPage.addNote st) w))
                 = (wire w ++ [InsertNote (Lead.id l) (LeadsPage.noteText st)
                                 (js "current_user")])
                   ++ [Select Table.notes]))
  /\ (forall (st : HandleCustomerPage.State) (w : World HandleCustomerPage.State B),
      wire (snd (run serve clock (HandleCustomerPage.handleFollowUp st) w)) = wire w
      \/ exists l,
          HandleCustomerPage.selectedLead st = Some l
          /\ (wire (snd (run serve clock (HandleCustomerPage.handleFollowUp st) w))
              = wire w ++ [InsertFollowUp (Lead.id l)
                             (HandleCustomerPage.followUpText st)
                             (fst (clock (backend w)))]
              \/ wire (snd (run serve clock (HandleCustomerPage.handleFollowUp st) w))
                 = (wire w ++ [InsertFollowUp (Lead.id l)
                                 (HandleCustomerPage.followUpText st)
                                 (fst (clock (backend w)))])
                   ++ [Select Table.follow_ups])).
Proof.
  split; intros st w.
  - unfold LeadsPage.addNote.
    destruct (LeadsPage.selectedLead st) as [l|];
      destruct (Js.truthy (Js.trim (LeadsPage.noteText st)));
      try (left; reflexivity);
      right; exists l; split; [reflexivity|];
      answers; auto.
  - unfold HandleCustomerPage.handleFollowUp.
    destruct (HandleCustomerPage.selectedLead st) as [l|];
      destruct (Js.truthy (Js.trim (HandleCustomerPage.followUpText st)));
      try (left; reflexivity);
      right; exists l; split; [reflexivity|];
      answers; auto.
Qed.

End WriteOutcomes.

(** ** Writes that succeed, and what follows *)

Section WriteSuccess.
Variable B : Type.
Variable serve : B -> forall r : request, outcome (response r) * B.
Variable clock : B -> str * B.

(** X7. With a lead selected and a text that is not blank, when the insert of
    [handleFollowUp] resolves without an error and the refetch resolves
    with a snapshot: the follow-ups list is that snapshot, the text is
    empty, no lead is selected, submitting is off, nothing is logged, and
    the insert carried the lead's id, the text as typed and the clock's
    reading. *)
Theorem handleFollowUp_success
    (st : HandleCustomerPage.State) (l : Lead.t)
    (w : World HandleCustomerPage.State B) (t : str) (b0 : B)
    (d : option unit) (b1 : B) (rows : list FollowUp.t)
    (e : option PostgrestError) (b2 : B) :
  HandleCustomerPage.selectedLead st = Some l ->
  Js.blank (HandleCustomerPage.followUpText st) = false ->
  clock (backend w) = (t, b0) ->
  serve b0 (InsertFollowUp (Lead.id l) (HandleCustomerPage.followUpText st) t)
  = (Resolved (Build_response_of d None), b1) ->
  serve b1 (Select Table.follow_ups)
  = (Resolved (Build_response_of (Some rows) e), b2) ->
  run serve clock (HandleCustomerPage.handleFollowUp st) w
  = (Returned tt,
     mkWorld
       (HandleCustomerPage.mkState
          (HandleCustomerPage.leads (page w)) rows
          (HandleCustomerPage.loading (page w)) None [] false)
       (console w)
       ((wire w ++ [InsertFollowUp (Lead.id l) (HandleCustomerPage.followUpText st) t])
        ++ [Select Table.follow_ups])
       b2).
Proof.
  intros Hsel Hblank Hclock Hins Hfetch.
  unfold HandleCustomerPage.handleFollowUp.
  rewrite truthy_trim, Hsel, Hblank. simpl.
  rewrite Hclock. simpl. rewrite Hins. simpl. rewrite Hfetch. reflexivity.
Qed.

(** X8. When the insert went through but the refetch inside the same [try]
    rejects, the rejection is caught and logged under the label of the
    write ("Error adding note:", "Error adding follow-up:") although the
    row was stored; the form has already been cleared, the list is stale
    and submitting is off. *)
Theorem refetch_rejection_logged_as_write_error :
  (forall (st : LeadsPage.State) (l : Lead.t) (w : World LeadsPage.State B)
          (d : option unit) (b1 : B) (x : thrown) (b2 : B),
      LeadsPage.selectedLead st = Some l ->
      Js.blank (LeadsPage.noteText st) = false ->
      serve (backend w)
            (InsertNote (Lead.id l) (LeadsPage.noteText st) (js "current_user"))
      = (Resolved (Build_response_of d None), b1) ->
      serve b1 (Select Table.notes) = (Rejected x, b2) ->
      run serve clock (LeadsPage.addNote st) w
      = (Returned tt,
         mkWorld
           (LeadsPage.mkState
              (LeadsPage.leads (page w)) (LeadsPage.notes (page w))
              (LeadsPage.loading (page w)) (LeadsPage.viewMode (page w))
              None [] false)
           (console w ++ [(js "Error adding note:", x)])
           ((wire w ++ [InsertNote (Lead.id l) (LeadsPage.noteText st)
                          (js "current_user")])
            ++ [Select Table.notes])
           b2))
  /\ (forall (st : HandleCustomerPage.State) (l : Lead.t)
             (w : World HandleCustomerPage.State B) (t : str) (b0 : B)
             (d : option unit) (b1 : B) (x : thrown) (b2 : B),
      HandleCustomerPage.selectedLead st = Some l ->
      Js.blank (HandleCustomerPage.followUpText st) = false ->
      clock (backend w) = (t, b0) ->
      serve b0 (InsertFollowUp (Lead.id l) (HandleCustomerPage.followUpText st) t)
      = (Resolved (Build_response_of d None), b1) ->
      serve b1 (Select Table.follow_ups) = (Rejected x, b2) ->
      run serve clock (HandleCustomerPage.handleFollowUp st) w
      = (Returned tt,
         mkWorld
           (HandleCustomerPage.mkState
              (HandleCustomerPage.leads (page w)) (HandleCustomerPage.followUps (page w))
              (HandleCustomerPage.loading (page w)) None [] false)
           (console w ++ [(js "Error adding follow-up:", x)])
           ((wire w ++ [InsertFollowUp (Lead.id l)
                          (HandleCustomerPage.followUpText st) t])
            ++ [Select Table.follow_ups])
           b2)).
Proof.
  split.
  - intros st l w d b1 x b2 Hsel Hblank Hins Hfetch.
    unfold LeadsPage.addNote. rewrite truthy_trim, Hsel, Hblank. simpl.
    rewrite Hins. simpl. rewrite Hfetch. reflexivity.
  - intros st l w t b0 d b1 x b2 Hsel Hblank Hclock Hins Hfetch.
    unfold HandleCustomerPage.handleFollowUp.
    rewrite truthy_trim, Hsel, Hblank. simpl.
    rewrite Hclock. simpl. rewrite Hins. simpl. rewrite Hfetch. reflexivity.
Qed.

(** X9. When the insert fails, by a rejected promise or by a returned error
    object, the typed text, the selection and the list are what they were,
    so the user can submit again; submitting is off and no refetch is
    sent. *)
Theorem failed_write_keeps_draft :
  (forall (st : LeadsPage.State) (l : Lead.t) (w : World LeadsPage.State B) (b1 : B),
      LeadsPage.selectedLead st = Some l ->
      Js.blank (LeadsPage.noteText st) = false ->
      (exists x,
          serve (backend w)
                (InsertNote (Lead.id l) (LeadsPage.noteText st) (js "current_user"))
          = (Rejected x, b1))
      \/ (exists d e,
             serve (backend w)
                   (InsertNote (Lead.id l) (LeadsPage.noteText st) (js "current_user"))
             = (Resolved (Build_response_of d (Some e)), b1)) ->
      page (snd (run serve clock (LeadsPage.addNote st) w))
      = LeadsPage.setSubmitting false (page w)
      /\ wire (snd (run serve clock (LeadsPage.addNote st) w))
         = wire w ++ [InsertNote (Lead.id l) (LeadsPage.noteText st)
                        (js "current_user")])
  /\ (forall (st : HandleCustomerPage.State) (l : Lead.t)
             (w : World HandleCustomerPage.State B) (t : str) (b0 b1 : B),
      HandleCustomerPage.selectedLead st = Some l ->
      Js.blank (HandleCustomerPage.followUpText st) = false ->
      clock (backend w) = (t, b0) ->
      (exists x,
          serve b0 (InsertFollowUp (Lead.id l) (HandleCustomerPage.followUpText st) t)
          = (Rejected x, b1))
      \/ (exists d e,
             serve b0 (InsertFollowUp (Lead.id l)
                         (HandleCustomerPage.followUpText st) t)
             = (Resolved (Build_response_of d (Some e)), b1)) ->
      page (snd (run serve clock (HandleCustomerPage.handleFollowUp st) w))
      = HandleCustomerPage.setSubmitting false (page w)
      /\ wire (snd (run serve clock (HandleCustomerPage.handleFollowUp st) w))
         = wire w ++ [InsertFollowUp (Lead.id l)
                        (HandleCustomerPage.followUpText st) t]).
Proof.
  split.
  - intros st l w b1 Hsel Hblank [(x & H) | (d & e & H)].
    + rewrite (addNote_rejected B serve clock st l w x b1 Hsel Hblank H).
      destruct w as [[] c wr b]. split; reflexivity.
    + rewrite (addNote_error_object B serve clock st l w d e b1 Hsel Hblank H).
      destruct w as [[] c wr b]. split; reflexivity.
  - intros st l w t b0 b1 Hsel Hblank Hclock [(x & H) | (d & e & H)].
    + rewrite (handleFollowUp_rejected B serve clock st l w t b0 x b1 Hsel Hblank Hclock H).
      destruct w as [[] c wr b]. split; reflexivity.
    + rewrite (handleFollowUp_error_object B serve clock st l w t b0 d e b1 Hsel Hblank Hclock H).
      destruct w as [[] c wr b]. split; reflexivity.
Qed.

End WriteSuccess.

(** ** Changes that reach no channel *)

Lemma matches_false (f : ChangeFilter) (ev : ChangeEvent) :
  schema f <> ev_schema ev \/ table_name f <> ev_table ev ->
  matches f ev = false.
Proof.
  unfold matches. intros [H|H]; apply js_eqb_neq in H; rewrite H.
  - now rewrite andb_false_r.
  - now rewrite andb_false_r.
Qed.

Section Unsubscribed.
Variable B : Type.
Variable serve : B -> forall r : request, outcome (response r) * B.
Variable clock : B -> str * B.

Lemma deliver_all_closed {S} (m : Mounted S B) (evs : list ChangeEvent) :
  channels m = [] ->
  deliver_all serve clock evs m = m.
Proof.
  intros Hc. induction evs as [|ev evs IH]; [reflexivity|].
  simpl. unfold deliver at 1. rewrite Hc. cbn [fold_left].
  rewrite <- Hc. destruct m as [w cs]. exact IH.
Qed.

(** X10. A change in another schema, or on a table the mounted page has no
    channel for, runs no callback: the page, the console, the calls sent
    and the open channels are all as before. *)
Theorem foreign_changes_ignored :
  (forall (second_first : bool) (w : World LeadsPage.State B) (ev : ChangeEvent),
      ev_schema ev <> js "public"
      \/ (ev_table ev <> js "leads" /\ ev_table ev <> js "notes") ->
      deliver serve clock ev (LeadsPage.useEffect serve clock second_first w)
      = LeadsPage.useEffect serve clock second_first w)
  /\ (forall (second_first : bool) (w : World HandleCustomerPage.State B)
             (ev : ChangeEvent),
      ev_schema ev <> js "public"
      \/ (ev_table ev <> js "leads" /\ ev_table ev <> js "follow_ups") ->
      deliver serve clock ev (HandleCustomerPage.useEffect serve clock second_first w)
      = HandleCustomerPage.useEffect serve clock second_first w).
Proof.
  split; intros second_first w ev H.
  - unfold deliver, LeadsPage.useEffect.
    cbn [channels world fold_left].
    rewrite (matches_false (filter LeadsPage.leadsSubscription) ev),
            (matches_false (filter LeadsPage.notesSubscription) ev);
      [reflexivity| |]; simpl;
      destruct H as [H|[H1 H2]]; auto.
  - unfold deliver, HandleCustomerPage.useEffect.
    cbn [channels world fold_left].
    rewrite (matches_false (filter HandleCustomerPage.leadsSubscription) ev),
            (matches_false (filter HandleCustomerPage.followUpsSubscription) ev);
      [reflexivity| |]; simpl;
      destruct H as [H|[H1 H2]]; auto.
Qed.

(** X11. The cleanup unsubscribes exactly the two channels the effect
    opened: after it the page has no open channel, so however many changes
    arrive, to whatever table, no call is sent and the page does not
    change; a change to leads, which was refetched before the cleanup, is
    no longer. A channel of another name that was open is left open. *)
Theorem no_refetch_after_cleanup :
  (forall (second_first : bool) (w : World LeadsPage.State B) (evs : list ChangeEvent),
      channels (LeadsPage.cleanup (LeadsPage.useEffect serve clock second_first w)) = []
      /\ deliver_all serve clock evs
           (LeadsPage.cleanup (LeadsPage.useEffect serve clock second_first w))
         = LeadsPage.cleanup (LeadsPage.useEffect serve clock second_first w)
      /\ count_select Table.leads
           (wire (world (deliver_all serve clock evs
                           (LeadsPage.cleanup
                              (LeadsPage.useEffect serve clock second_first w)))))
         = count_select Table.leads
             (wire (world (LeadsPage.useEffect serve clock second_first w))))
  /\ (forall (second_first : bool) (w : World HandleCustomerPage.State B)
             (evs : list ChangeEvent),
      channels (HandleCustomerPage.cleanup
                  (HandleCustomerPage.useEffect serve clock second_first w)) = []
      /\ deliver_all serve clock evs
           (HandleCustomerPage.cleanup
              (HandleCustomerPage.useEffect serve clock second_first w))
         = HandleCustomerPage.cleanup
             (HandleCustomerPage.useEffect serve clock second_first w)
      /\ count_select Table.leads
           (wire (world (deliver_all serve clock evs
                           (HandleCustomerPage.cleanup
                              (HandleCustomerPage.useEffect serve clock second_first w)))))
         = count_select Table.leads
             (wire (world (HandleCustomerPage.useEffect serve clock second_first w))))
  /\ (forall (m : Mounted LeadsPage.State B) (other : Subscription LeadsPage.State),
      In other (channels m) ->
      channel other <> js "leads_changes" ->
      channel other <> js "notes_changes" ->
      In other (channels (LeadsPage.cleanup m)))
  /\ (forall (m : Mounted HandleCustomerPage.State B)
             (other : Subscription HandleCustomerPage.State),
      In other (channels m) ->
      channel other <> js "leads_changes" ->
      channel other <> js "follow_ups_changes" ->
      In other (channels (HandleCustomerPage.cleanup m))).
Proof.
  split; [|split; [|split]].
  - intros second_first w evs.
    assert (Hc : channels (LeadsPage.cleanup
                             (LeadsPage.useEffect serve clock second_first w)) = [])
      by reflexivity.
    split; [exact Hc|].
    rewrite (deliver_all_closed _ evs Hc). split; reflexivity.
  - intros second_first w evs.
    assert (Hc : channels (HandleCustomerPage.cleanup
                             (HandleCustomerPage.useEffect serve clock second_first w))
                 = [])
      by reflexivity.
    split; [exact Hc|].
    rewrite (deliver_all_closed _ evs Hc). split; reflexivity.
  - intros m other Hin H1 H2. unfold LeadsPage.cleanup, unsubscribe.
    cbn [channels]. apply filter_In. split.
    + apply filter_In. split; [exact Hin|].
      apply negb_true_iff. now apply js_eqb_neq.
    + apply negb_true_iff. now apply js_eqb_neq.
  - intros m other Hin H1 H2. unfold HandleCustomerPage.cleanup, unsubscribe.
    cbn [channels]. apply filter_In. split.
    + apply filter_In. split; [exact Hin|].
      apply negb_true_iff. now apply js_eqb_neq.
    + apply negb_true_iff. now apply js_eqb_neq.
Qed.

End Unsubscribed.

(** ** What the pages show *)

(** X12. The badge is gray for every status other than new, contacted and
    qualified: closed and any unknown status look the same, and only those
    three statuses get a colour of their own. *)
Theorem getStatusColor_gray (status : str) :
  getStatusColor status = js "bg-gray-100 text-gray-800"
  <-> ~ In status [js "new"; js "contacted"; js "qualified"].
Proof.
  unfold getStatusColor.
  destruct (Js.eqb status (js "new")) eqn:E1;
    [apply js_eqb_eq in E1; subst status; split;
       [intros H; vm_compute in H; discriminate H | intros H; exfalso; apply H; simpl; auto]|].
  destruct (Js.eqb status (js "contacted")) eqn:E2;
    [apply js_eqb_eq in E2; subst status; split;
       [intros H; vm_compute in H; discriminate H | intros H; exfalso; apply H; simpl; auto]|].
  destruct (Js.eqb status (js "qualified")) eqn:E3;
    [apply js_eqb_eq in E3; subst status; split;
       [intros H; vm_compute in H; discriminate H | intros H; exfalso; apply H; simpl; auto]|].
  apply js_eqb_neq in E1, E2, E3.
  split.
  - intros _ [H|[H|[H|[]]]]; congruence.
  - intros _. now destruct (Js.eqb status (js "closed")).
Qed.

(** X13. In the list view of the Leads page and on the HandleCustomer page, each
    panel shows either its entries or its empty-state sentence, never both
    and never neither: "No leads available" exactly when no lead is loaded
    (otherwise one entry per lead), "No notes yet" / "No follow-ups yet"
    exactly when that list is empty (otherwise at least one entry). *)
Theorem panels_show_entries_or_message :
  (forall st : LeadsPage.State,
      LeadsPage.loading st = false ->
      LeadsPage.viewMode st = LeadsPage.list_view ->
      exists stats v,
        LeadsPage.render st = LeadsPage.PageView stats (LeadsPage.ListBody v)
        /\ List.length (LeadsPage.lead_cards v) = List.length (LeadsPage.leads st)
        /\ (LeadsPage.leads_empty v = Some (js "No leads available")
            <-> LeadsPage.leads st = [])
        /\ (LeadsPage.leads_empty v = None <-> LeadsPage.leads st <> [])
        /\ (LeadsPage.notes_empty v = Some (js "No notes yet")
            <-> LeadsPage.recent_notes v = [])
        /\ (LeadsPage.notes_empty v = None <-> LeadsPage.recent_notes v <> [])
        /\ (LeadsPage.recent_notes v = [] <-> LeadsPage.notes st = []))
  /\ (forall st : HandleCustomerPage.State,
      HandleCustomerPage.loading st = false ->
      exists cards leads_empty form recent follow_ups_empty,
        HandleCustomerPage.render st
        = HandleCustomerPage.PageView cards leads_empty form recent follow_ups_empty
        /\ List.length cards = List.length (HandleCustomerPage.leads st)
        /\ (leads_empty = Some (js "No leads available")
            <-> HandleCustomerPage.leads st = [])
        /\ (leads_empty = None <-> HandleCustomerPage.leads st <> [])
        /\ (follow_ups_empty = Some (js "No follow-ups yet") <-> recent = [])
        /\ (follow_ups_empty = None <-> recent <> [])
        /\ (recent = [] <-> HandleCustomerPage.followUps st = [])).
Proof.
  split.
  - intros st Hl Hv. unfold LeadsPage.render. rewrite Hl, Hv.
    eexists. eexists. split; [reflexivity|].
    cbn [LeadsPage.lead_cards LeadsPage.leads_empty LeadsPage.notes_empty
         LeadsPage.recent_notes].
    rewrite (slice_0 5), length_map.
    destruct (LeadsPage.leads st) as [|a ls]; destruct (LeadsPage.notes st) as [|n ns];
      simpl; repeat split; intros; congruence.
  - intros st Hl. unfold HandleCustomerPage.render. rewrite Hl.
    do 5 eexists. split; [reflexivity|].
    rewrite (slice_0 10), length_map.
    destruct (HandleCustomerPage.leads st) as [|a ls];
      destruct (HandleCustomerPage.followUps st) as [|n ns];
      simpl; repeat split; intros; congruence.
Qed.

(** ** The form and what a click on it sends *)

Lemma addNote_sends (st : LeadsPage.State) (l : Lead.t) :
  LeadsPage.selectedLead st = Some l ->
  Js.blank (LeadsPage.noteText st) = false ->
  exists k,
    LeadsPage.addNote st
    = SetState (LeadsPage.setSubmitting true)
        (Call (InsertNote (Lead.id l) (LeadsPage.noteText st) (js "current_user")) k).
Proof.
  intros Hsel Hblank. unfold LeadsPage.addNote.
  rewrite truthy_trim, Hsel, Hblank. simpl. eexists. reflexivity.
Qed.

Lemma handleFollowUp_sends (st : HandleCustomerPage.State) (l : Lead.t) :
  HandleCustomerPage.selectedLead st = Some l ->
  Js.blank (HandleCustomerPage.followUpText st) = false ->
  exists k,
    HandleCustomerPage.handleFollowUp st
    = SetState (HandleCustomerPage.setSubmitting true)
        (Now (fun t =>
                Call (InsertFollowUp (Lead.id l) (HandleCustomerPage.followUpText st) t)
                     (k t))).
Proof.
  intros Hsel Hblank. unfold HandleCustomerPage.handleFollowUp.
  rewrite truthy_trim, Hsel, Hblank. simpl. eexists (fun t => _). reflexivity.
Qed.

(** X14. With a lead selected, the list view shows the form for that lead with
    the text as typed; its button is disabled exactly when the page is
    submitting or the text is blank, and shows the spinner exactly when
    submitting. A click on a button disabled for a blank text would send
    nothing; [addNote] itself does not look at the submitting flag, so the
    disabled button is the only thing that stops a second insert while one
    is in flight. *)
Theorem add_note_button :
  forall (st : LeadsPage.State) (l : Lead.t),
    LeadsPage.loading st = false ->
    LeadsPage.viewMode st = LeadsPage.list_view ->
    LeadsPage.selectedLead st = Some l ->
    exists stats v disabled,
      LeadsPage.render st = LeadsPage.PageView stats (LeadsPage.ListBody v)
      /\ LeadsPage.note_form v
         = LeadsPage.Form (Lead.name l) (Lead.email l) (LeadsPage.noteText st)
             disabled (LeadsPage.submitting st)
      /\ (disabled = false
          <-> LeadsPage.submitting st = false
              /\ Js.blank (LeadsPage.noteText st) = false)
      /\ (Js.blank (LeadsPage.noteText st) = true -> LeadsPage.addNote st = Ret tt)
      /\ (Js.blank (LeadsPage.noteText st) = false ->
          exists k,
            LeadsPage.addNote st
            = SetState (LeadsPage.setSubmitting true)
                (Call (InsertNote (Lead.id l) (LeadsPage.noteText st)
                         (js "current_user")) k)).
Proof.
  intros st l Hl Hv Hsel. unfold LeadsPage.render. rewrite Hl, Hv, Hsel.
  do 3 eexists. split; [reflexivity|].
  cbn [LeadsPage.note_form]. split; [reflexivity|].
  rewrite truthy_trim, negb_involutive.
  split; [|split].
  - destruct (LeadsPage.submitting st), (Js.blank (LeadsPage.noteText st));
      simpl; split; intros; try tauto; try discriminate.
  - intros Hb. apply guard_addNote. now right.
  - intros Hb. now apply addNote_sends.
Qed.

(** X15. Clicking a lead selects it and keeps the text already typed: a text
    typed while one lead was selected is sent for the lead clicked last.
    Typing never changes the selection. *)
Theorem clickLead_keeps_draft :
  (forall (st : LeadsPage.State) (lead : Lead.t),
      LeadsPage.noteText (LeadsPage.clickLead lead st) = LeadsPage.noteText st
      /\ (forall v, LeadsPage.selectedLead
                      (LeadsPage.changeNoteText v (LeadsPage.clickLead lead st))
                    = Some lead)
      /\ (Js.blank (LeadsPage.noteText st) = false ->
          exists k,
            LeadsPage.addNote (LeadsPage.clickLead lead st)
            = SetState (LeadsPage.setSubmitting true)
                (Call (InsertNote (Lead.id lead) (LeadsPage.noteText st)
                         (js "current_user")) k)))
  /\ (forall (st : HandleCustomerPage.State) (lead : Lead.t),
      HandleCustomerPage.followUpText (HandleCustomerPage.clickLead lead st)
      = HandleCustomerPage.followUpText st
      /\ (forall v, HandleCustomerPage.selectedLead
                      (HandleCustomerPage.changeFollowUpText v
                         (HandleCustomerPage.clickLead lead st))
                    = Some lead)
      /\ (Js.blank (HandleCustomerPage.followUpText st) = false ->
          exists k,
            HandleCustomerPage.handleFollowUp (HandleCustomerPage.clickLead lead st)
            = SetState (HandleCustomerPage.setSubmitting true)
                (Now (fun t =>
                        Call (InsertFollowUp (Lead.id lead)
                                (HandleCustomerPage.followUpText st) t)
                             (k t))))).
Proof.
  split; intros st lead; (split; [reflexivity|split; [reflexivity|]]); intros Hb.
  - destruct (addNote_sends (LeadsPage.clickLead lead st) lead eq_refl Hb) as [k Hk].
    exists k. exact Hk.
  - destruct (handleFollowUp_sends (HandleCustomerPage.clickLead lead st) lead
                eq_refl Hb) as [k Hk].
    exists k. exact Hk.
Qed.

(** X16. Cancel undoes selecting and typing: from a page with no lead selected
    and no text, clicking a lead, typing, and clicking Cancel gives the
    page back as it was; and after Cancel, whatever came before, the write
    handler sends nothing. *)
Theorem clickCancel_resets :
  (forall (st : LeadsPage.State) (lead : Lead.t) (v : str),
      (LeadsPage.selectedLead st = None ->
       LeadsPage.noteText st = [] ->
       LeadsPage.clickCancel (LeadsPage.changeNoteText v (LeadsPage.clickLead lead st))
       = st)
      /\ LeadsPage.addNote (LeadsPage.clickCancel st) = Ret tt)
  /\ (forall (st : HandleCustomerPage.State) (lead : Lead.t) (v : str),
      (HandleCustomerPage.selectedLead st = None ->
       HandleCustomerPage.followUpText st = [] ->
       HandleCustomerPage.clickCancel
         (HandleCustomerPage.changeFollowUpText v (HandleCustomerPage.clickLead lead st))
       = st)
      /\ HandleCustomerPage.handleFollowUp (HandleCustomerPage.clickCancel st) = Ret tt).
Proof.
  split; intros [] lead v; split; try reflexivity;
    simpl; intros -> ->; reflexivity.
Qed.

(** ** The highlighted lead *)

Lemma no_card_selected (st : LeadsPage.State) (s : Lead.t) (ls : list Lead.t) :
  LeadsPage.selectedLead st = Some s ->
  ~ In (Lead.id s) (map Lead.id ls) ->
  List.filter LeadsPage.lead_selected (map (LeadsPage.render_lead st) ls) = [].
Proof.
  intros Hsel. induction ls as [|a ls IH]; intros Hn; [reflexivity|].
  cbn [map List.filter]. unfold LeadsPage.render_lead at 1.
  cbn [LeadsPage.lead_selected]. rewrite Hsel.
  destruct (Js.eqb (Lead.id s) (Lead.id a)) eqn:E.
  - apply js_eqb_eq in E. exfalso. apply Hn. left. now symmetry.
  - apply IH. intros H. apply Hn. now right.
Qed.

Lemma one_card_selected (st : LeadsPage.State) (s : Lead.t) (ls : list Lead.t) :
  LeadsPage.selectedLead st = Some s ->
  NoDup (map Lead.id ls) ->
  In (Lead.id s) (map Lead.id ls) ->
  List.length (List.filter LeadsPage.lead_selected (map (LeadsPage.render_lead st) ls))
  = 1.
Proof.
  intros Hsel. induction ls as [|a ls IH]; intros Hnd Hin; [contradiction|].
  cbn [map] in Hnd. apply NoDup_cons_iff in Hnd as [Ha Hnd].
  cbn [map List.filter]. unfold LeadsPage.render_lead at 1.
  cbn [LeadsPage.lead_selected]. rewrite Hsel.
  destruct (Js.eqb (Lead.id s) (Lead.id a)) eqn:E.
  - apply js_eqb_eq in E. cbn [List.length]. f_equal.
    rewrite (no_card_selected st s ls Hsel); [reflexivity|].
    now rewrite E.
  - apply js_eqb_neq in E. apply IH; [exact Hnd|].
    destruct Hin as [Hin|Hin]; [congruence|exact Hin].
Qed.

Lemma no_customer_card_selected (st : HandleCustomerPage.State) (s : Lead.t)
    (ls : list Lead.t) :
  HandleCustomerPage.selectedLead st = Some s ->
  ~ In (Lead.id s) (map Lead.id ls) ->
  List.filter HandleCustomerPage.lead_selected
    (map (HandleCustomerPage.render_lead st) ls) = [].
Proof.
  intros Hsel. induction ls as [|a ls IH]; intros Hn; [reflexivity|].
  cbn [map List.filter]. unfold HandleCustomerPage.render_lead at 1.
  cbn [HandleCustomerPage.lead_selected]. rewrite Hsel.
  destruct (Js.eqb (Lead.id s) (Lead.id a)) eqn:E.
  - apply js_eqb_eq in E. exfalso. apply Hn. left. now symmetry.
  - apply IH. intros H. apply Hn. now right.
Qed.

Lemma one_customer_card_selected (st : HandleCustomerPage.State) (s : Lead.t)
    (ls : list Lead.t) :
  HandleCustomerPage.selectedLead st = Some s ->
  NoDup (map Lead.id ls) ->
  In (Lead.id s) (map Lead.id ls) ->
  List.length (List.filter HandleCustomerPage.lead_selected
                 (map (HandleCustomerPage.render_lead st) ls))
  = 1.
Proof.
  intros Hsel. induction ls as [|a ls IH]; intros Hnd Hin; [contradiction|].
  cbn [map] in Hnd. apply NoDup_cons_iff in Hnd as [Ha Hnd].
  cbn [map List.filter]. unfold HandleCustomerPage.render_lead at 1.
  cbn [HandleCustomerPage.lead_selected]. rewrite Hsel.
  destruct (Js.eqb (Lead.id s) (Lead.id a)) eqn:E.
  - apply js_eqb_eq in E. cbn [List.length]. f_equal.
    rewrite (no_customer_card_selected st s ls Hsel); [reflexivity|].
    now rewrite E.
  - apply js_eqb_neq in E. apply IH; [exact Hnd|].
    destruct Hin as [Hin|Hin]; [congruence|exact Hin].
Qed.

(** X17. When the loaded leads have distinct ids, exactly one entry of the leads
    list is highlighted if the selected lead's id is among them, and none
    if it is not (a selection made before a refetch that dropped the
    lead). The highlight goes by id, not by the selected object. *)
Theorem highlight_unique :
  (forall (st : LeadsPage.State) (s : Lead.t),
      LeadsPage.loading st = false ->
      LeadsPage.viewMode st = LeadsPage.list_view ->
      LeadsPage.selectedLead st = Some s ->
      NoDup (map Lead.id (LeadsPage.leads st)) ->
      exists stats v,
        LeadsPage.render st = LeadsPage.PageView stats (LeadsPage.ListBody v)
        /\ List.length (List.filter LeadsPage.lead_selected (LeadsPage.lead_cards v))
           = if existsb (fun l => Js.eqb (Lead.id l) (Lead.id s)) (LeadsPage.leads st)
             then 1 else 0)
  /\ (forall (st : HandleCustomerPage.State) (s : Lead.t),
      HandleCustomerPage.loading st = false ->
      HandleCustomerPage.selectedLead st = Some s ->
      NoDup (map Lead.id (HandleCustomerPage.leads st)) ->
      exists cards leads_empty form recent follow_ups_empty,
        HandleCustomerPage.render st
        = HandleCustomerPage.PageView cards leads_empty form recent follow_ups_empty
        /\ List.length (List.filter HandleCustomerPage.lead_selected cards)
           = if existsb (fun l => Js.eqb (Lead.id l) (Lead.id s))
                        (HandleCustomerPage.leads st)
             then 1 else 0).
Proof.
  split.
  - intros st s Hl Hv Hsel Hnd. unfold LeadsPage.render. rewrite Hl, Hv.
    do 2 eexists. split; [reflexivity|]. cbn [LeadsPage.lead_cards].
    destruct (existsb _ (LeadsPage.leads st)) eqn:E.
    + apply (one_card_selected st s); [exact Hsel|exact Hnd|].
      apply existsb_exists in E as (l & Hin & Hid).
      apply js_eqb_eq in Hid. rewrite <- Hid. now apply in_map.
    + rewrite (no_card_selected st s _ Hsel); [reflexivity|].
      intros Hin. apply in_map_iff in Hin as (l & Hid & Hin).
      assert (existsb (fun l => Js.eqb (Lead.id l) (Lead.id s)) (LeadsPage.leads st)
              = true); [|congruence].
      apply existsb_exists. exists l. split; [exact Hin|]. now apply js_eqb_eq.
  - intros st s Hl Hsel Hnd. unfold HandleCustomerPage.render. rewrite Hl.
    do 5 eexists. split; [reflexivity|].
    destruct (existsb _ (HandleCustomerPage.leads st)) eqn:E.
    + apply (one_customer_card_selected st s); [exact Hsel|exact Hnd|].
      apply existsb_exists in E as (l & Hin & Hid).
      apply js_eqb_eq in Hid. rewrite <- Hid. now apply in_map.
    + rewrite (no_customer_card_selected st s _ Hsel); [reflexivity|].
      intros Hin. apply in_map_iff in Hin as (l & Hid & Hin).
      assert (existsb (fun l => Js.eqb (Lead.id l) (Lead.id s))
                      (HandleCustomerPage.leads st) = true); [|congruence].
      apply existsb_exists. exists l. split; [exact Hin|]. now apply js_eqb_eq.
Qed.

(** ** The status buttons of Active Leads *)

Lemma status_after_update (w : World HandleCustomerPage.State Db.t)
    (leadId status : str) (l : Lead.t) :
  Db.plan (backend w) = [] ->
  In l (HandleCustomerPage.leads
          (page (snd (run Db.serve Db.clock
                        (HandleCustomerPage.updateLeadStatus leadId status) w)))) ->
  Lead.id l = leadId ->
  Lead.status l = status.
Proof.
  destruct w as [st c wr [ls ns fs t p]]. simpl. intros ->. cbn.
  intros Hin Hid. apply in_map_iff in Hin as (x & Hx & _).
  destruct (Js.eqb (Lead.id x) leadId) eqn:E.
  - subst l. reflexivity.
  - subst l. apply js_eqb_neq in E. contradiction.
Qed.

(** X18. On a backend that applies the update and answers the refetch, a click
    on Mark Contacted (or Qualify) of a lead's entry makes every loaded
    lead with that id show the status "contacted" with the yellow badge
    (or "qualified" with the green one), whatever its status was; the
    click does not select the lead, change the typed text or log
    anything. *)
Theorem status_buttons :
  forall (w : World HandleCustomerPage.State Db.t) (st : HandleCustomerPage.State)
         (lead : Lead.t),
    Db.plan (backend w) = [] ->
    (forall l,
        In l (HandleCustomerPage.leads
                (page (snd (run Db.serve Db.clock
                              (HandleCustomerPage.mark_contacted
                                 (HandleCustomerPage.render_lead st lead)) w)))) ->
        Lead.id l = Lead.id lead ->
        HandleCustomerPage.lead_status
          (HandleCustomerPage.render_lead
             (page (snd (run Db.serve Db.clock
                           (HandleCustomerPage.mark_contacted
                              (HandleCustomerPage.render_lead st lead)) w))) l)
        = js "contacted"
        /\ HandleCustomerPage.lead_badge
             (HandleCustomerPage.render_lead
                (page (snd (run Db.serve Db.clock
                              (HandleCustomerPage.mark_contacted
                                 (HandleCustomerPage.render_lead st lead)) w))) l)
           = js "bg-yellow-100 text-yellow-800")
    /\ (forall l,
        In l (HandleCustomerPage.leads
                (page (snd (run Db.serve Db.clock
                              (HandleCustomerPage.qualify
                                 (HandleCustomerPage.render_lead st lead)) w)))) ->
        Lead.id l = Lead.id lead ->
        HandleCustomerPage.lead_status
          (HandleCustomerPage.render_lead
             (page (snd (run Db.serve Db.clock
                           (HandleCustomerPage.qualify
                              (HandleCustomerPage.render_lead st lead)) w))) l)
        = js "qualified"
        /\ HandleCustomerPage.lead_badge
             (HandleCustomerPage.render_lead
                (page (snd (run Db.serve Db.clock
                              (HandleCustomerPage.qualify
                                 (HandleCustomerPage.render_lead st lead)) w))) l)
           = js "bg-green-100 text-green-800")
    /\ HandleCustomerPage.selectedLead
         (page (snd (run Db.serve Db.clock
                       (HandleCustomerPage.qualify
                          (HandleCustomerPage.render_lead st lead)) w)))
       = HandleCustomerPage.selectedLead (page w)
    /\ HandleCustomerPage.followUpText
         (page (snd (run Db.serve Db.clock
                       (HandleCustomerPage.qualify
                          (HandleCustomerPage.render_lead st lead)) w)))
       = HandleCustomerPage.followUpText (page w)
    /\ console (snd (run Db.serve Db.clock
                       (HandleCustomerPage.qualify
                          (HandleCustomerPage.render_lead st lead)) w))
       = console w
    /\ HandleCustomerPage.selectedLead
         (page (snd (run Db.serve Db.clock
                       (HandleCustomerPage.mark_contacted
                          (HandleCustomerPage.render_lead st lead)) w)))
       = HandleCustomerPage.selectedLead (page w)
    /\ HandleCustomerPage.followUpText
         (page (snd (run Db.serve Db.clock
                       (HandleCustomerPage.mark_contacted
                          (HandleCustomerPage.render_lead st lead)) w)))
       = HandleCustomerPage.followUpText (page w)
    /\ console (snd (run Db.serve Db.clock
                       (HandleCustomerPage.mark_contacted
                          (HandleCustomerPage.render_lead st lead)) w))
       = console w.
Proof.
  intros w st lead Hp.
  split; [|split].
  - intros l Hin Hid.
    cbn [HandleCustomerPage.render_lead HandleCustomerPage.mark_contacted] in Hin.
    cbn [HandleCustomerPage.render_lead HandleCustomerPage.lead_status
         HandleCustomerPage.lead_badge].
    rewrite (status_after_update w (Lead.id lead) (js "contacted") l Hp Hin Hid).
    split; reflexivity.
  - intros l Hin Hid.
    cbn [HandleCustomerPage.render_lead HandleCustomerPage.qualify] in Hin.
    cbn [HandleCustomerPage.render_lead HandleCustomerPage.lead_status
         HandleCustomerPage.lead_badge].
    rewrite (status_after_update w (Lead.id lead) (js "qualified") l Hp Hin Hid).
    split; reflexivity.
  - destruct w as [pg c wr [ls ns fs t p]]. simpl in Hp. subst p.
    cbn. repeat split.
Qed.

(** ** Stats cards that account for every lead *)

Lemma counted_1_iff (l : Lead.t) : counted l = 1 <-> In (Lead.status l) status_labels.
Proof.
  split.
  - intros H. unfold counted in H.
    destruct (List.filter (Js.eqb (Lead.status l)) status_labels) as [|x xs] eqn:E;
      [discriminate H|].
    assert (Hx : In x (List.filter (Js.eqb (Lead.status l)) status_labels))
      by (rewrite E; now left).
    apply filter_In in Hx as [Hx He]. apply js_eqb_eq in He. now rewrite He.
  - intros H. pose proof (counted_le_1 l) as Hle.
    assert (Hin : In (Lead.status l)
                     (List.filter (Js.eqb (Lead.status l)) status_labels)).
    { apply filter_In. split; [exact H|apply js_eqb_refl]. }
    unfold counted in *.
    destruct (List.filter (Js.eqb (Lead.status l)) status_labels);
      [contradiction|simpl in *; lia].
Qed.

Lemma counted_all_iff (ls : list Lead.t) :
  list_sum (map counted ls) = List.length ls
  <-> Forall (fun l => In (Lead.status l) status_labels) ls.
Proof.
  induction ls as [|a ls IH].
  - simpl. split; [constructor|reflexivity].
  - change (list_sum (map counted (a :: ls)))
      with (counted a + list_sum (map counted ls)).
    pose proof (counted_le_1 a) as Ha.
    pose proof (list_sum_counted_le ls) as Hls.
    cbn [List.length]. split.
    + intros H. constructor.
      * apply counted_1_iff. lia.
      * apply IH. lia.
    + intros H. inversion H as [|x xs Hx Hxs]; subst.
      apply counted_1_iff in Hx. apply IH in Hxs. lia.
Qed.

(** X19. The four numbers of the stats cards add up to the number of loaded
    leads exactly when every loaded lead has one of the four statuses; a
    single lead with any other status makes the cards fall short. *)
Theorem stats_cover_all_iff (st : LeadsPage.State) :
  LeadsPage.loading st = false ->
  (stats_total (LeadsPage.render st) = List.length (LeadsPage.leads st)
   <-> Forall (fun l => In (Lead.status l) status_labels) (LeadsPage.leads st)).
Proof.
  intros Hl. unfold LeadsPage.render. rewrite Hl.
  unfold stats_total. cbn [LeadsPage.new_leads LeadsPage.contacted
                           LeadsPage.qualified LeadsPage.closed].
  unfold LeadsPage.getLeadsByStatus.
  rewrite stats_total_counted. apply counted_all_iff.
Qed.

(** ** More on the migration *)

Lemma member_iff (r : Sql.relation) (pub : list Sql.relation) :
  existsb (Sql.relation_eqb r) pub = true <-> In r pub.
Proof.
  split.
  - intros H. apply existsb_exists in H as (x & Hx & Hr).
    apply relation_eqb_eq in Hr. now subst x.
  - intros H. apply existsb_exists. exists r. split; [exact H|].
    now apply relation_eqb_eq.
Qed.

(** A run that ends found none of the seven tables in the publication. *)
Lemma migration_needs_unpublished {tuple} (d d' : Sql.db tuple) :
  Sql.exec_all Sql.migration d = Some d' ->
  forall r, In r Sql.seven -> ~ In r (Sql.publication d).
Proof.
  intros H. destruct d as [U O P Pol]. cbn [Sql.publication].
  unfold Sql.migration, Sql.seed in H.
  repeat (rewrite exec_all_cons in H;
          cbn [Sql.exec Sql.user_rows Sql.other_rows Sql.publication Sql.policies] in H;
          rewrite ?existsb_app, ?existsb_filter_negb in H;
          cbn [existsb Sql.relation_eqb orb] in H;
          rewrite ?orb_false_r in H;
          try match type of H with
              | context [existsb (Sql.relation_eqb ?x) P] =>
                  destruct (existsb (Sql.relation_eqb x) P) eqn:?; [discriminate H|]
              end).
  intros r Hr Hin. apply member_iff in Hin.
  vm_compute in Hr.
  repeat (destruct Hr as [Hr|Hr]; [subst r; congruence|]). exact Hr.
Qed.

(** X20. The migration cannot run to its end on a database where one of
    its seven tables is already a member of the realtime publication: a
    run that ended found none of them there. *)
Theorem migration_needs_unpublished_tables :
  forall (tuple : Type) (d : Sql.db tuple) (r : Sql.relation),
    In r Sql.seven ->
    In r (Sql.publication d) ->
    Sql.exec_all Sql.migration d = None.
Proof.
  intros tuple d r Hr Hin.
  destruct (Sql.exec_all Sql.migration d) as [d'|] eqn:E; [|reflexivity].
  exfalso. exact (migration_needs_unpublished d d' E r Hr Hin).
Qed.

(** X21. The migration cannot be run twice: after a run that ended, a second
    run on the resulting database stops with an error (the tables are
    already members of the publication), although its seed statement alone
    could be repeated. *)
Theorem migration_not_rerunnable :
  forall (tuple : Type) (d d' : Sql.db tuple),
    Sql.exec_all Sql.migration d = Some d' ->
    Sql.exec_all Sql.migration d' = None
    /\ Sql.exec Sql.seed d' = Some d'.
Proof.
  intros tuple d d' H.
  pose proof (migration_needs_unpublished d d' H) as Hpub.
  destruct (migration_runs d Hpub) as (d1 & Hrun & Hu & _ & _ & Hp & _).
  rewrite H in Hrun. injection Hrun as <-.
  split.
  - destruct (Sql.exec_all Sql.migration d') as [d2|] eqn:E; [|reflexivity].
    exfalso. apply (migration_needs_unpublished d' d2 E Sql.users).
    + vm_compute. tauto.
    + rewrite Hp. apply in_or_app. right. vm_compute. tauto.
  - destruct d' as [U O P Pol]. cbn [Sql.user_rows] in Hu. subst U. reflexivity.
Qed.

Lemma filter_filter {A} (f g : A -> bool) (l : list A) :
  List.filter f (List.filter g l) = List.filter (fun x => g x && f x) l.
Proof.
  induction l as [|a l IH]; simpl; [reflexivity|].
  destruct (g a); simpl; [|exact IH].
  destruct (f a); now rewrite IH.
Qed.

Lemma same_policy_spec (n : str) (r : Sql.relation) (p : Sql.policy) :
  Sql.same_policy n r p = true <-> Sql.policy_name p = n /\ Sql.policy_table p = r.
Proof.
  unfold Sql.same_policy. rewrite andb_true_iff, js_eqb_eq, relation_eqb_eq. tauto.
Qed.

(** The policies after a run: the old ones whose name and table are not
    those of a created policy, followed by the seven created. *)
Lemma migration_policies_explicit {tuple} (d d' : Sql.db tuple) :
  Sql.exec_all Sql.migration d = Some d' ->
  Sql.policies d'
  = List.filter
      (fun p => negb (existsb
                        (fun q => Sql.same_policy (Sql.policy_name q)
                                    (Sql.policy_table q) p)
                        (Sql.created_policies Sql.migration)))
      (Sql.policies d)
    ++ Sql.created_policies Sql.migration.
Proof.
  intros H. pose proof (migration_needs_unpublished d d' H) as Hpub.
  destruct d as [U O P Pol]. cbn [Sql.publication Sql.policies] in *.
  assert (Hn : forall r, In r Sql.seven -> existsb (Sql.relation_eqb r) P = false).
  { intros r Hr. apply not_member. now apply Hpub. }
  pose proof (Hn Sql.users ltac:(vm_compute; tauto)) as H1.
  pose proof (Hn Sql.products ltac:(vm_compute; tauto)) as H2.
  pose proof (Hn Sql.packages ltac:(vm_compute; tauto)) as H3.
  pose proof (Hn Sql.leads ltac:(vm_compute; tauto)) as H4.
  pose proof (Hn Sql.notes ltac:(vm_compute; tauto)) as H5.
  pose proof (Hn Sql.targets ltac:(vm_compute; tauto)) as H6.
  pose proof (Hn Sql.handle_customer_data ltac:(vm_compute; tauto)) as H7.
  unfold Sql.migration, Sql.seed in H.
  repeat (rewrite exec_all_cons in H;
          cbn [Sql.exec Sql.user_rows Sql.other_rows Sql.publication Sql.policies
               existsb Sql.relation_eqb orb] in H;
          rewrite ?existsb_app, ?H1, ?H2, ?H3, ?H4, ?H5, ?H6, ?H7,
            ?existsb_filter_negb in H;
          cbn [existsb Sql.relation_eqb orb] in H).
  cbn [Sql.exec_all] in H. injection H as <-.
  cbn [Sql.policies].
  rewrite !filter_app.
  rewrite !filter_keep by (vm_compute; reflexivity).
  rewrite <- !app_assoc.
  rewrite !filter_filter.
  f_equal.
  apply filter_ext. intros p.
  cbv [Sql.created_policies Sql.migration Sql.seed flat_map app].
  cbn [existsb Sql.policy_name Sql.policy_table].
  repeat match goal with
         | |- context [Sql.same_policy ?n ?r p] => destruct (Sql.same_policy n r p)
         end; reflexivity.
Qed.

(** X22. What a run does to the policies and to [follow_ups]: every old policy
    whose name and table are not those of a created one is still there;
    each created policy is the only policy with its name on its table, so
    an older one of that name has been replaced; no policy on [follow_ups]
    is added; and [follow_ups] is in the publication after the run only if
    it was before, so the migration does not turn on the change feed the
    HandleCustomer page subscribes to. *)
Theorem migration_policies_and_follow_ups :
  forall (tuple : Type) (d d' : Sql.db tuple),
    Sql.exec_all Sql.migration d = Some d' ->
    (forall p,
        In p (Sql.policies d) ->
        (forall q, In q (Sql.created_policies Sql.migration) ->
                   ~ (Sql.policy_name p = Sql.policy_name q
                      /\ Sql.policy_table p = Sql.policy_table q)) ->
        In p (Sql.policies d'))
    /\ (forall q,
        In q (Sql.created_policies Sql.migration) ->
        List.filter (Sql.same_policy (Sql.policy_name q) (Sql.policy_table q))
                    (Sql.policies d') = [q])
    /\ (forall p,
        In p (Sql.policies d') ->
        Sql.policy_table p = Sql.follow_ups ->
        In p (Sql.policies d))
    /\ (In Sql.follow_ups (Sql.publication d')
        <-> In Sql.follow_ups (Sql.publication d)).
Proof.
  intros tuple d d' H.
  pose proof (migration_policies_explicit d d' H) as Hpol.
  pose proof (migration_needs_unpublished d d' H) as Hpub.
  destruct (migration_runs d Hpub) as (d1 & Hrun & _ & _ & _ & Hp & _).
  rewrite H in Hrun. injection Hrun as <-.
  split; [|split; [|split]].
  - intros p Hin Hother. rewrite Hpol. apply in_or_app. left.
    apply filter_In. split; [exact Hin|].
    apply negb_true_iff.
    destruct (existsb _ (Sql.created_policies Sql.migration)) eqn:E; [|reflexivity].
    apply existsb_exists in E as (q & Hq & Hs).
    apply same_policy_spec in Hs. exfalso. exact (Hother q Hq Hs).
  - intros q Hq. rewrite Hpol, filter_app.
    assert (Hold : List.filter
                     (Sql.same_policy (Sql.policy_name q) (Sql.policy_table q))
                     (List.filter
                        (fun p => negb (existsb
                                          (fun q0 => Sql.same_policy (Sql.policy_name q0)
                                                       (Sql.policy_table q0) p)
                                          (Sql.created_policies Sql.migration)))
                        (Sql.policies d)) = []).
    { clear Hpol. rewrite filter_filter.
      induction (Sql.policies d) as [|a l IH]; [reflexivity|].
      cbn [List.filter].
      destruct (Sql.same_policy (Sql.policy_name q) (Sql.policy_table q) a) eqn:E.
      - assert (Hex : existsb (fun q0 => Sql.same_policy (Sql.policy_name q0)
                                           (Sql.policy_table q0) a)
                              (Sql.created_policies Sql.migration) = true).
        { apply existsb_exists. exists q. split; [exact Hq|exact E]. }
        rewrite Hex. exact IH.
      - rewrite andb_false_r. exact IH. }
    rewrite Hold. cbn [app].
    vm_compute in Hq.
    repeat (destruct Hq as [Hq|Hq]; [subst q; vm_compute; reflexivity|]).
    contradiction.
  - intros p Hin Ht. rewrite Hpol in Hin. apply in_app_or in Hin as [Hin|Hin].
    + apply filter_In in Hin. tauto.
    + exfalso. vm_compute in Hin.
      repeat (destruct Hin as [Hin|Hin]; [subst p; discriminate Ht|]).
      exact Hin.
  - rewrite Hp. split.
    + intros Hin. apply in_app_or in Hin as [Hin|Hin]; [exact Hin|].
      exfalso. vm_compute in Hin.
      repeat (destruct Hin as [Hin|Hin]; [discriminate Hin|]). exact Hin.
    + intros Hin. apply in_or_app. now left.
Qed.

(** ** Runs of the further properties on the samples *)

Lemma fetchData_resolved_witness :
  run Db.serve Db.clock (LeadsPage.fetchData true) (Sample.leads_world [])
  = (Returned tt,
     mkWorld
       (LeadsPage.mkState [Sample.ann; Sample.bob] [] false LeadsPage.list_view
          (Some Sample.ann) (js "hi") false)
       [] [Select Table.leads; Select Table.notes] (Sample.db []))
  /\ run Db.serve Db.clock (HandleCustomerPage.fetchData false)
       (Sample.customer_world [Db.ReturnsError Sample.denied])
     = (Returned tt,
        mkWorld
          (HandleCustomerPage.mkState [Sample.ann; Sample.bob] [] false
             (Some Sample.ann) (js "call") false)
          [] [Select Table.leads; Select Table.follow_ups] (Sample.db [])).
Proof.
  destruct (fetchData_resolved Db.t Db.serve Db.clock) as [HL HC].
  split.
  - apply (HL true (Sample.leads_world [])
              (Build_response_of (Some [Sample.ann; Sample.bob]) None) (Sample.db [])
              (Build_response_of (Some []) None) (Sample.db []));
      reflexivity.
  - apply (HC false (Sample.customer_world [Db.ReturnsError Sample.denied])
              (Build_response_of None (Some Sample.denied)) (Sample.db [])
              (Build_response_of (Some []) None) (Sample.db []));
      reflexivity.
Defined.

Lemma fetchData_rejected_keeps_spinner_witness :
  (LeadsPage.loading
     (page (snd (run Db.serve Db.clock (LeadsPage.fetchData true)
                   (Sample.leads_world [Db.Rejects Sample.offline;
                                        Db.Rejects Sample.timed_out])))) = true
   /\ LeadsPage.render
        (page (snd (run Db.serve Db.clock (LeadsPage.fetchData true)
                      (Sample.leads_world [Db.Rejects Sample.offline;
                                           Db.Rejects Sample.timed_out]))))
      = LeadsPage.Spinner
   /\ fst (run Db.serve Db.clock (LeadsPage.fetchData true)
             (Sample.leads_world [Db.Rejects Sample.offline;
                                  Db.Rejects Sample.timed_out]))
      = Uncaught Sample.timed_out)
  /\ fst (run Db.serve Db.clock (LeadsPage.fetchData false)
            (Sample.leads_world [Db.Healthy; Db.Rejects Sample.timed_out]))
     = Uncaught Sample.timed_out.
Proof.
  destruct (fetchData_rejected_keeps_spinner Db.t Db.serve Db.clock) as [HL _].
  split.
  - destruct (HL true
                (Sample.leads_world [Db.Rejects Sample.offline;
                                     Db.Rejects Sample.timed_out])
                (Rejected Sample.offline)
                (Sample.db [Db.Rejects Sample.timed_out])
                (Rejected Sample.timed_out) (Sample.db [])
                eq_refl eq_refl) as [H _].
    destruct (H Sample.offline eq_refl) as (Hl & Hr & _ & He).
    split; [exact Hl|]. split; [exact Hr|].
    exact (He Sample.timed_out eq_refl).
  - destruct (HL false
                (Sample.leads_world [Db.Healthy; Db.Rejects Sample.timed_out])
                (Resolved (Build_response_of (Some [Sample.ann; Sample.bob]) None))
                (Sample.db [Db.Rejects Sample.timed_out])
                (Rejected Sample.timed_out) (Sample.db [])
                eq_refl eq_refl) as [_ H].
    destruct (H Sample.timed_out eq_refl) as (_ & _ & He).
    exact (He _ eq_refl).
Defined.

Lemma write_handlers_settle_witness :
  fst (run Db.serve Db.clock (LeadsPage.addNote Sample.leads_page)
         (Sample.leads_world [Db.Healthy; Db.Rejects Sample.offline]))
  = Returned tt
  /\ LeadsPage.submitting
       (page (Sample.after_addNote [Db.Healthy; Db.Rejects Sample.offline])) = false.
Proof.
  destruct (proj1 (write_handlers_settle Db.t Db.serve Db.clock) Sample.leads_page
              (Sample.leads_world [Db.Healthy; Db.Rejects Sample.offline]))
    as [H1 H2].
  split; [exact H1|]. apply H2. reflexivity.
Defined.

Lemma handleFollowUp_success_witness :
  run Db.serve Db.clock (HandleCustomerPage.handleFollowUp Sample.customer_page)
    (Sample.customer_world [])
  = (Returned tt,
     mkWorld
       (HandleCustomerPage.mkState [Sample.ann; Sample.bob] [Sample.stored_follow_up]
          false None [] false)
       [] [Sample.insert_call; Select Table.follow_ups]
       (Db.mk [Sample.ann; Sample.bob] [] [Sample.stored_follow_up]
          (js "2025-08-04T00:00:00.000Z") [])).
Proof.
  apply (handleFollowUp_success Db.t Db.serve Db.clock Sample.customer_page Sample.ann
           (Sample.customer_world []) (js "2025-08-04T00:00:00.000Z") (Sample.db [])
           None
           (Db.mk [Sample.ann; Sample.bob] [] [Sample.stored_follow_up]
              (js "2025-08-04T00:00:00.000Z") [])
           [Sample.stored_follow_up] None
           (Db.mk [Sample.ann; Sample.bob] [] [Sample.stored_follow_up]
              (js "2025-08-04T00:00:00.000Z") []));
    reflexivity.
Defined.

Lemma refetch_rejection_logged_as_write_error_witness :
  run Db.serve Db.clock (LeadsPage.addNote Sample.leads_page)
    (Sample.leads_world [Db.Healthy; Db.Rejects Sample.offline])
  = (Returned tt,
     mkWorld
       (LeadsPage.mkState [Sample.ann; Sample.bob] [] false LeadsPage.list_view
          None [] false)
       [(js "Error adding note:", Sample.offline)]
       [Sample.insert_hi; Select Table.notes]
       (Db.mk [Sample.ann; Sample.bob] [Sample.stored_note] []
          (js "2025-08-04T00:00:00.000Z") [])).
Proof.
  apply (proj1 (refetch_rejection_logged_as_write_error Db.t Db.serve Db.clock)
           Sample.leads_page Sample.ann
           (Sample.leads_world [Db.Healthy; Db.Rejects Sample.offline]) None
           (Db.mk [Sample.ann; Sample.bob] [Sample.stored_note] []
              (js "2025-08-04T00:00:00.000Z") [Db.Rejects Sample.offline])
           Sample.offline
           (Db.mk [Sample.ann; Sample.bob] [Sample.stored_note] []
              (js "2025-08-04T00:00:00.000Z") []));
    reflexivity.
Defined.

Lemma failed_write_keeps_draft_witness :
  page (Sample.after_addNote [Db.ReturnsError Sample.denied]) = Sample.leads_page
  /\ wire (Sample.after_addNote [Db.ReturnsError Sample.denied]) = [Sample.insert_hi].
Proof.
  apply (proj1 (failed_write_keeps_draft Db.t Db.serve Db.clock)
           Sample.leads_page Sample.ann
           (Sample.leads_world [Db.ReturnsError Sample.denied]) (Sample.db []));
    try reflexivity.
  right. exists None, Sample.denied. reflexivity.
Defined.

Lemma foreign_changes_ignored_witness :
  deliver Db.serve Db.clock (Sample.change INSERT "users")
    (LeadsPage.useEffect Db.serve Db.clock false (Sample.leads_world []))
  = LeadsPage.useEffect Db.serve Db.clock false (Sample.leads_world [])
  /\ deliver Db.serve Db.clock (Sample.change UPDATE "notes")
       (HandleCustomerPage.useEffect Db.serve Db.clock false (Sample.customer_world []))
     = HandleCustomerPage.useEffect Db.serve Db.clock false (Sample.customer_world []).
Proof.
  destruct (foreign_changes_ignored Db.t Db.serve Db.clock) as [HL HC].
  split.
  - apply HL. right. split; intros E; vm_compute in E; discriminate E.
  - apply HC. right. split; intros E; vm_compute in E; discriminate E.
Defined.

Lemma no_refetch_after_cleanup_witness :
  channels (LeadsPage.cleanup
              (mkMounted (Sample.leads_world [])
                 [LeadsPage.leadsSubscription; Sample.users_channel;
                  LeadsPage.notesSubscription]))
  = [Sample.users_channel]
  /\ In Sample.users_channel
        (channels (LeadsPage.cleanup
                     (mkMounted (Sample.leads_world [])
                        [LeadsPage.leadsSubscription; Sample.users_channel;
                         LeadsPage.notesSubscription]))).
Proof.
  split; [reflexivity|].
  destruct (no_refetch_after_cleanup Db.t Db.serve Db.clock) as (_ & _ & H & _).
  apply H.
  - right. left. reflexivity.
  - intros E. vm_compute in E. discriminate E.
  - intros E. vm_compute in E. discriminate E.
Defined.

Lemma getStatusColor_gray_witness :
  getStatusColor (js "archived") = js "bg-gray-100 text-gray-800"
  /\ getStatusColor (js "closed") = js "bg-gray-100 text-gray-800".
Proof.
  split; apply getStatusColor_gray; intros H; vm_compute in H;
    repeat (destruct H as [H|H]; [discriminate H|]); exact H.
Defined.

Lemma panels_show_entries_or_message_witness :
  (exists stats v,
      LeadsPage.render Sample.empty_page
      = LeadsPage.PageView stats (LeadsPage.ListBody v)
      /\ LeadsPage.leads_empty v = Some (js "No leads available")
      /\ LeadsPage.recent_notes v = [])
  /\ (exists stats v,
      LeadsPage.render Sample.notes_page
      = LeadsPage.PageView stats (LeadsPage.ListBody v)
      /\ LeadsPage.leads_empty v = None
      /\ LeadsPage.notes_empty v = None).
Proof.
  destruct panels_show_entries_or_message as [HL _].
  split.
  - destruct (HL Sample.empty_page eq_refl eq_refl)
      as (stats & v & Hr & _ & He & _ & _ & _ & Hn).
    exists stats, v. split; [exact Hr|]. split.
    + apply He. reflexivity.
    + apply Hn. reflexivity.
  - destruct (HL Sample.notes_page eq_refl eq_refl)
      as (stats & v & Hr & _ & _ & He & _ & Hn & Hr').
    exists stats, v. split; [exact Hr|]. split.
    + apply He. discriminate.
    + apply Hn. intros E. apply Hr' in E. discriminate E.
Defined.

Lemma add_note_button_witness :
  exists k,
    LeadsPage.addNote Sample.leads_page
    = SetState (LeadsPage.setSubmitting true) (Call Sample.insert_hi k).
Proof.
  destruct (add_note_button Sample.leads_page Sample.ann eq_refl eq_refl eq_refl)
    as (stats & v & disabled & _ & _ & _ & _ & Hs).
  exact (Hs eq_refl).
Defined.

Lemma clickLead_keeps_draft_witness :
  exists k,
    LeadsPage.addNote (LeadsPage.clickLead Sample.bob Sample.leads_page)
    = SetState (LeadsPage.setSubmitting true)
        (Call (InsertNote (js "L2") (js "hi") (js "current_user")) k).
Proof.
  destruct (proj1 clickLead_keeps_draft Sample.leads_page Sample.bob) as (_ & _ & Hs).
  exact (Hs eq_refl).
Defined.

Lemma clickCancel_resets_witness :
  LeadsPage.clickCancel
    (LeadsPage.changeNoteText (js "hi") (LeadsPage.clickLead Sample.ann Sample.ann_page))
  = Sample.ann_page.
Proof.
  destruct (proj1 clickCancel_resets Sample.ann_page Sample.ann (js "hi")) as [H _].
  apply H; reflexivity.
Defined.

Lemma highlight_unique_witness :
  exists stats v,
    LeadsPage.render Sample.leads_page
    = LeadsPage.PageView stats (LeadsPage.ListBody v)
    /\ List.length (List.filter LeadsPage.lead_selected (LeadsPage.lead_cards v)) = 1.
Proof.
  apply (proj1 highlight_unique Sample.leads_page Sample.ann eq_refl eq_refl eq_refl).
  simpl. repeat constructor; simpl; intros H;
    repeat (destruct H as [H|H]; [vm_compute in H; discriminate H|]); exact H.
Defined.

Lemma status_buttons_witness :
  HandleCustomerPage.selectedLead
    (page (snd (run Db.serve Db.clock
                  (HandleCustomerPage.qualify
                     (HandleCustomerPage.render_lead Sample.customer_page Sample.bob))
                  (Sample.customer_world []))))
  = Some Sample.ann
  /\ In (Lead.with_status (js "qualified") Sample.bob)
        (HandleCustomerPage.leads
           (page (snd (run Db.serve Db.clock
                         (HandleCustomerPage.qualify
                            (HandleCustomerPage.render_lead Sample.customer_page
                               Sample.bob))
                         (Sample.customer_world [])))))
  /\ HandleCustomerPage.lead_badge
       (HandleCustomerPage.render_lead
          (page (snd (run Db.serve Db.clock
                        (HandleCustomerPage.qualify
                           (HandleCustomerPage.render_lead Sample.customer_page
                              Sample.bob))
                        (Sample.customer_world []))))
          (Lead.with_status (js "qualified") Sample.bob))
     = js "bg-green-100 text-green-800"
  /\ HandleCustomerPage.selectedLead
       (page (snd (run Db.serve Db.clock
                     (HandleCustomerPage.mark_contacted
                        (HandleCustomerPage.render_lead Sample.customer_page Sample.bob))
                     (Sample.customer_world []))))
     = Some Sample.ann
  /\ console (snd (run Db.serve Db.clock
                     (HandleCustomerPage.mark_contacted
                        (HandleCustomerPage.render_lead Sample.customer_page Sample.bob))
                     (Sample.customer_world [])))
     = [].
Proof.
  destruct (status_buttons (Sample.customer_world []) Sample.customer_page Sample.bob
              eq_refl) as (_ & Hq & Hs & _ & _ & Hs' & _ & Hc').
  split; [exact Hs|].
  assert (Hin : In (Lead.with_status (js "qualified") Sample.bob)
                   (HandleCustomerPage.leads
                      (page (snd (run Db.serve Db.clock
                                    (HandleCustomerPage.qualify
                                       (HandleCustomerPage.render_lead
                                          Sample.customer_page Sample.bob))
                                    (Sample.customer_world [])))))).
  { vm_compute. right. left. reflexivity. }
  split; [exact Hin|].
  split; [exact (proj2 (Hq _ Hin eq_refl))|].
  split; [exact Hs'|exact Hc'].
Defined.

Lemma stats_cover_all_iff_witness :
  stats_total (LeadsPage.render Sample.ann_page)
  = List.length (LeadsPage.leads Sample.ann_page)
  /\ ~ Forall (fun l => In (Lead.status l) status_labels)
         (LeadsPage.leads Sample.leads_page).
Proof.
  split.
  - apply (proj2 (stats_cover_all_iff Sample.ann_page eq_refl)).
    constructor; [|constructor]. vm_compute. do 3 right. left. reflexivity.
  - intros H. apply (proj2 (stats_cover_all_iff Sample.leads_page eq_refl)) in H.
    vm_compute in H. discriminate H.
Defined.

Lemma migration_needs_unpublished_tables_witness :
  Sql.exec_all Sql.migration Sample.published_leads = None.
Proof.
  apply (migration_needs_unpublished_tables nat Sample.published_leads Sql.leads).
  - right. right. left. reflexivity.
  - left. reflexivity.
Defined.

Lemma catalogue_migrated :
  Sql.exec_all Sql.migration Sample.catalogue = Some Sample.migrated.
Proof. vm_compute. reflexivity. Qed.

Lemma migration_not_rerunnable_witness :
  Sql.exec_all Sql.migration Sample.migrated = None
  /\ Sql.exec Sql.seed Sample.migrated = Some Sample.migrated.
Proof.
  apply (migration_not_rerunnable nat Sample.catalogue Sample.migrated).
  exact catalogue_migrated.
Defined.

Lemma migration_policies_and_follow_ups_witness :
  List.filter (Sql.same_policy (js "Enable real-time for leads") Sql.leads)
              (Sql.policies Sample.migrated)
  = [ {| Sql.policy_name := js "Enable real-time for leads";
         Sql.policy_table := Sql.leads;
         Sql.policy_cmd := Sql.ForSelect;
         Sql.policy_using := Sql.UsingLeadRoles |} ]
  /\ ~ In Sql.follow_ups (Sql.publication Sample.migrated).
Proof.
  destruct (migration_policies_and_follow_ups nat Sample.catalogue Sample.migrated
              catalogue_migrated) as (_ & Hone & _ & Hpub).
  split.
  - apply (Hone {| Sql.policy_name := js "Enable real-time for leads";
                   Sql.policy_table := Sql.leads;
                   Sql.policy_cmd := Sql.ForSelect;
                   Sql.policy_using := Sql.UsingLeadRoles |}).
    do 3 right. left. reflexivity.
  - intros H. apply Hpub in H. exact H.
Defined.
